(** * The Pyodide bridge of the Device Data Model Validator

    A shallow embedding of [static/js/pyodide-bridge.js] and the proofs of
    its properties.

    The bridge keeps three module-level variables ([pyodide],
    [pythonModulesLoaded], [initializationPromise]) and talks to the outside
    world through the embedded Python runtime, [fetch], the runtime's
    filesystem, [JSON] and the console.  The embedding threads the module
    variables through a state-and-exception monad.  Everything the bridge
    does not own is an oracle of the environment [Env]; oracles that stand
    for services with state answer from the history of the interaction so
    far, so that the same request may be answered differently at different
    times.  Every interaction is appended to a trace, and so is every
    assignment of [true] to [pythonModulesLoaded].

    What the model covers:
    - an exported function is run until its promise settles, and no other
      call of the bridge is interleaved with it; a promise is therefore
      stored in its settled state;
    - characters are bytes; a number is an integer or a binary
      floating-point value, and the model keeps the two apart although
      JavaScript does not;
    - of the Python scripts, the model evaluates what the bridge itself
      decides: the string literal that carries the log text (after the
      lexical rules for string literals of the Python language reference)
      and the closing expression of the version detection script; the
      effect of every other script is an answer of the environment;
    - of the page, the model keeps whether an element with a given id
      exists (an answer of the environment), the changes of [display], the
      [pyodide-ready] event and the failure notice. *)

From stdpp Require Import gmap strings list fin_maps.
From Stdlib Require Import Ascii.
From Stdlib Require Import Floats.SpecFloat.

Set Default Proof Using "Type".

(** ** Values on both sides of the boundary *)

(** A thrown JavaScript value; only its [message] is ever inspected. *)
Inductive JsError : Type :=
| Error (msg : string).

Definition message (e : JsError) : string :=
  match e with Error m => m end.

(** The result of a call that may throw, or of a promise that has settled. *)
Inductive Outcome (A : Type) : Type :=
| Returns (a : A)
| Throws (e : JsError).
Arguments Returns {A} a.
Arguments Throws {A} e.

(** The runtime instance handed out by [loadPyodide]. *)
Definition Handle : Type := nat.

(** JavaScript values.  [JNum n] is the number (or BigInt) that a Python
    [int] converts to, [JFloat x] the number that a Python [float]
    converts to. *)
#[warnings="-register-all"]
Inductive JsVal : Type :=
| JUndefined
| JNull
| JBool (b : bool)
| JNum (n : Z)
| JFloat (x : spec_float)
| JStr (s : string)
| JArr (items : list JsVal)
| JObj (fields : list (string * JsVal))
| JPyProxy (id : nat).

(** Python values seen at the boundary: the scalars that the runtime
    converts, and opaque objects that only have a truth value. *)
Inductive PyVal : Type :=
| PyNone
| PyBool (b : bool)
| PyInt (n : Z)
| PyFloat (x : spec_float)
| PyStr (s : string)
| PyObject (truthy : bool) (id : nat).

(** Python truth value testing. *)
Definition py_truthy (v : PyVal) : bool :=
  match v with
  | PyNone => false
  | PyBool b => b
  | PyInt n => negb (n =? 0)%Z
  | PyFloat x => match x with S754_zero _ => false | _ => true end
  | PyStr s => negb (String.eqb s EmptyString)
  | PyObject t _ => t
  end.

(** The implicit conversion of a script's result to JavaScript. *)
Definition to_js (v : PyVal) : JsVal :=
  match v with
  | PyNone => JUndefined
  | PyBool b => JBool b
  | PyInt n => JNum n
  | PyFloat x => JFloat x
  | PyStr s => JStr s
  | PyObject _ id => JPyProxy id
  end.

(** ** Interactions *)

Inductive Level : Type := LLog | LWarn | LError.

(** The set-up scripts of initialization, by the line where they start. *)
Inductive SetupScript : Type :=
| InstallHttpShim                    (* line 23: micropip.install(['pyodide-http']) *)
| InstallWheel (packageUrl : string) (* line 39: micropip.install(['${packageUrl}']) *)
| InstallIndex                       (* line 64: micropip.install(['esp-matter-dm-validator']) *)
| MakeDataDir                        (* line 84: os.makedirs('/data') *)
| PatchLoader.                       (* line 108: cc.load_chip_validation_data = ... *)

(** The scripts that name a delegate and end in [json.dumps], with the
    globals they read ([None] when the name is unbound). *)
Inductive JsonDelegate : Type :=
| parse_datamodel_logs (log_data_str : option PyVal)
| validate_device_conformance (parsed_data_json spec_version_str : option PyVal)
| SUPPORTED_SPEC_VERSIONS.

Record Response : Type := mkResponse {
  ok : bool;
  text : Outcome string;
}.

Inductive Event : Type :=
| EvConsole (l : Level) (msg : string) (detail : option JsError)
| EvLoadPyodide (r : Outcome Handle)
| EvSetup (s : SetupScript) (r : Outcome unit)
| EvFetch (url : string) (r : Outcome Response)
| EvWriteFile (path data : string) (r : Outcome unit)
| EvLogLiteral (escapedLogData : string) (r : Outcome (option PyVal))
| EvGlobalsSet (name : string) (v : PyVal)
| EvJsonDelegate (d : JsonDelegate) (r : Outcome string)
| EvDetect (parsed_data_json : option PyVal) (r : Outcome PyVal)
| EvModulesLoaded
| EvDisplay (id value : string)   (* [element.style.display = value] *)
| EvHostReady                     (* the [pyodide-ready] event *)
| EvHostFailed (msg : string).    (* the notice put in the loading element *)

Definition Trace : Type := list Event.

(** Everything outside the bridge.  Oracles that stand for asynchronous or
    stateful services take the trace so far. *)
Record Env : Type := mkEnv {
  DMV_PACKAGE_URL : option string;
  loadPyodide : Trace -> Outcome Handle;
  runSetup : Trace -> SetupScript -> Outcome unit;
  fetch : Trace -> string -> Outcome Response;
  FS_writeFile : Trace -> string -> string -> Outcome unit;
  runOtherLiteral : Trace -> string -> Outcome (option PyVal);
  runJsonDelegate : Trace -> JsonDelegate -> Outcome string;
  runDetect : Trace -> option PyVal -> Outcome PyVal;
  JSON_parse : string -> Outcome JsVal;
  JSON_stringify : JsVal -> Outcome (option string);
  document_getElementById : Trace -> string -> bool;
}.

(** ** The state of the module and of the runtime *)

Record World : Type := mkWorld {
  pyodide : option Handle;
  pythonModulesLoaded : bool;
  initializationPromise : option (Outcome Handle);
  FS : gmap string string;
  py_globals : gmap string PyVal;
  trace : Trace;
}.

Definition initial : World :=
  {| pyodide := None; pythonModulesLoaded := false;
     initializationPromise := None; FS := ∅; py_globals := ∅; trace := [] |}.

Definition with_pyodide (h : Handle) (w : World) : World :=
  {| pyodide := Some h; pythonModulesLoaded := pythonModulesLoaded w;
     initializationPromise := initializationPromise w; FS := FS w;
     py_globals := py_globals w; trace := trace w |}.

Definition with_loaded (w : World) : World :=
  {| pyodide := pyodide w; pythonModulesLoaded := true;
     initializationPromise := initializationPromise w; FS := FS w;
     py_globals := py_globals w; trace := trace w ++ [EvModulesLoaded] |}.

Definition with_promise (p : Outcome Handle) (w : World) : World :=
  {| pyodide := pyodide w; pythonModulesLoaded := pythonModulesLoaded w;
     initializationPromise := Some p; FS := FS w;
     py_globals := py_globals w; trace := trace w |}.

Definition with_file (path data : string) (w : World) : World :=
  {| pyodide := pyodide w; pythonModulesLoaded := pythonModulesLoaded w;
     initializationPromise := initializationPromise w;
     FS := <[path := data]> (FS w);
     py_globals := py_globals w; trace := trace w |}.

Definition with_global (name : string) (v : PyVal) (w : World) : World :=
  {| pyodide := pyodide w; pythonModulesLoaded := pythonModulesLoaded w;
     initializationPromise := initializationPromise w; FS := FS w;
     py_globals := <[name := v]> (py_globals w);
     trace := trace w ++ [EvGlobalsSet name v] |}.

Definition with_event (e : Event) (w : World) : World :=
  {| pyodide := pyodide w; pythonModulesLoaded := pythonModulesLoaded w;
     initializationPromise := initializationPromise w; FS := FS w;
     py_globals := py_globals w; trace := trace w ++ [e] |}.

(** ** The monad of bridge code *)

Definition M (A : Type) : Type := World -> Outcome A * World.

Definition ret {A} (a : A) : M A := fun w => (Returns a, w).

Definition throw {A} (e : JsError) : M A := fun w => (Throws e, w).

Definition bind {A B} (m : M A) (k : A -> M B) : M B :=
  fun w =>
    match m w with
    | (Returns a, w') => k a w'
    | (Throws e, w') => (Throws e, w')
    end.

(** [try { m } catch (e) { h e }] *)
Definition try_catch {A} (m : M A) (h : JsError -> M A) : M A :=
  fun w =>
    match m w with
    | (Returns a, w') => (Returns a, w')
    | (Throws e, w') => h e w'
    end.

Notation "'do' x <- m ; k" := (bind m (fun x => k))
  (at level 10, x name, m at level 100, k at level 200).
Notation "m >> k" := (bind m (fun _ => k))
  (at level 90, right associativity).

Definition modify (f : World -> World) : M unit := fun w => (Returns tt, f w).

Definition console (l : Level) (msg : string) (detail : option JsError) : M unit :=
  modify (with_event (EvConsole l msg detail)).

(** Ask an oracle, and record question and answer in the trace. *)
Definition ask {A} (oracle : Trace -> Outcome A) (ev : Outcome A -> Event) : M A :=
  fun w => let r := oracle (trace w) in (r, with_event (ev r) w).

(** A value that was already computed, or the exception it raised. *)
Definition settle {A} (r : Outcome A) : M A := fun w => (r, w).

(** [for (const x of l) { body x }] *)
Fixpoint for_of {A} (l : list A) (body : A -> M unit) : M unit :=
  match l with
  | [] => ret tt
  | x :: l' => body x >> for_of l' body
  end.

(** ** Strings: the JavaScript escaping and the Python literal *)

Definition backslash : ascii := "092"%char.
Definition backtick : ascii := "096"%char.
Definition dollar : ascii := "036"%char.
Definition lbrace : ascii := "123"%char.
Definition dquote : ascii := "034"%char.
Definition squote : ascii := "039"%char.

Definition str1 (c : ascii) : string := String c EmptyString.
Definition str2 (c d : ascii) : string := String c (String d EmptyString).

(** [s.replace(/c/g, rep)] for a one-character pattern. *)
Fixpoint replace_char (c : ascii) (rep : string) (s : string) : string :=
  match s with
  | EmptyString => EmptyString
  | String a rest =>
      if Ascii.eqb a c then rep +:+ replace_char c rep rest
      else String a (replace_char c rep rest)
  end.

(** [s.replace(/cd/g, rep)] for a two-character pattern: matches are taken
    from the left and do not overlap. *)
Fixpoint replace_pair (c d : ascii) (rep : string) (s : string) : string :=
  match s with
  | EmptyString => EmptyString
  | String a rest =>
      match rest with
      | String b rest' =>
          if Ascii.eqb a c && Ascii.eqb b d
          then rep +:+ replace_pair c d rep rest'
          else String a (replace_pair c d rep rest)
      | EmptyString => String a EmptyString
      end
  end.

(** Lines 152-155: the three replacements applied to [logData]. *)
Definition escapeLogData (logData : string) : string :=
  replace_pair dollar lbrace (String backslash (str2 dollar lbrace))
    (replace_char backtick (str2 backslash backtick)
       (replace_char backslash (str2 backslash backslash) logData)).

(** What Python does with the character after a backslash in a string
    literal that is not raw (Python language reference, escape sequences
    of string literals): the recognised escapes denote a character, a
    backslash at the end of a line joins lines, and an unrecognised escape
    is left in the string unchanged, backslash included. *)
Inductive Escape : Type :=
| EscChar (c : ascii)   (* a recognised escape that denotes [c] *)
| EscJoin               (* backslash and newline: both dropped *)
| EscKept               (* not an escape: backslash and character both stay *)
| EscNumeric.           (* octal, \x, \N, \u, \U: not modelled *)

Definition py_escape (c : ascii) : Escape :=
  if Ascii.eqb c backslash then EscChar backslash
  else if Ascii.eqb c squote then EscChar squote
  else if Ascii.eqb c dquote then EscChar dquote
  else if Ascii.eqb c "a" then EscChar "007"
  else if Ascii.eqb c "b" then EscChar "008"
  else if Ascii.eqb c "f" then EscChar "012"
  else if Ascii.eqb c "n" then EscChar "010"
  else if Ascii.eqb c "r" then EscChar "013"
  else if Ascii.eqb c "t" then EscChar "009"
  else if Ascii.eqb c "v" then EscChar "011"
  else if Ascii.eqb c "010" then EscJoin
  else if (Ascii.eqb c "x" || Ascii.eqb c "N" || Ascii.eqb c "u" || Ascii.eqb c "U"
           || (48 <=? nat_of_ascii c) && (nat_of_ascii c <=? 55))
       then EscNumeric
  else EscKept.

(** Characters of the source text for which the model makes no statement:
    line ends (the runtime dedents and normalises the script before it is
    compiled) and NUL. *)
Definition unmodelled_char (c : ascii) : bool :=
  Ascii.eqb c "010" || Ascii.eqb c "013" || Ascii.eqb c "000".

Definition prepend (c : ascii) (r : option (string * string)) : option (string * string) :=
  match r with
  | Some (v, rest) => Some (String c v, rest)
  | None => None
  end.

(** The Python lexer on the text that follows an opening triple quote:
    the value of the literal and the source text after the closing triple
    quote.  [None] when the literal does not end or leaves the modelled
    fragment. *)
Fixpoint py_lex_triple (src : string) : option (string * string) :=
  match src with
  | EmptyString => None
  | String c rest =>
      if Ascii.eqb c backslash then
        match rest with
        | EmptyString => None
        | String d rest' =>
            if unmodelled_char d then None else
            match py_escape d with
            | EscChar x => prepend x (py_lex_triple rest')
            | EscJoin => py_lex_triple rest'
            | EscKept => prepend c (prepend d (py_lex_triple rest'))
            | EscNumeric => None
            end
        end
      else if Ascii.eqb c dquote then
        match rest with
        | String d (String e rest') =>
            if Ascii.eqb d dquote && Ascii.eqb e dquote
            then Some (EmptyString, rest')
            else prepend c (py_lex_triple rest)
        | _ => None
        end
      else if unmodelled_char c then None
      else prepend c (py_lex_triple rest)
  end.

Definition triple_quote : string := String dquote (str2 dquote dquote).

(** Line 160: the value of [log_data_str] when the text between the triple
    quotes of the script is [body], provided the literal ends exactly at
    the script's closing triple quote. *)
Definition py_triple_quoted (body : string) : option string :=
  match py_lex_triple (body +:+ triple_quote) with
  | Some (v, EmptyString) => Some v
  | _ => None
  end.

(** The first two replacements of [escapeLogData]. *)
Definition doubled (s : string) : string :=
  replace_char backtick (str2 backslash backtick)
    (replace_char backslash (str2 backslash backslash) s).

(** The text with a backslash put before every backtick and every
    dollar-brace pair: the escaping without the doubling of backslashes. *)
Definition backslashed (logData : string) : string :=
  replace_pair dollar lbrace (String backslash (str2 dollar lbrace))
    (replace_char backtick (str2 backslash backtick) logData).

(** Texts of one line without double quotes. *)
Fixpoint single_line_unquoted (s : string) : bool :=
  match s with
  | EmptyString => true
  | String c rest =>
      negb (Ascii.eqb c dquote) && negb (unmodelled_char c) && single_line_unquoted rest
  end.

(** ** The bridge *)

Section Bridge.

Variable E : Env.

(** Line 35: [window.DMV_PACKAGE_URL || null]; the empty string is falsy. *)
Definition packageUrl : option string :=
  match DMV_PACKAGE_URL E with
  | Some url => if String.eqb url EmptyString then None else Some url
  | None => None
  end.

Definition run_setup (s : SetupScript) : M unit :=
  ask (fun tr => runSetup E tr s) (EvSetup s).

(** [pythonModulesLoaded = true] *)
Definition set_pythonModulesLoaded : M unit := modify with_loaded.

(** [pyodide.FS.writeFile(path, data)] *)
Definition writeFile (path data : string) : M unit :=
  ask (fun tr => FS_writeFile E tr path data) (EvWriteFile path data) >>
  modify (with_file path data).

(** [pyodide.globals.set(name, v)] *)
Definition globals_set (name : string) (v : PyVal) : M unit :=
  modify (with_global name v).

Definition package_unavailable : JsError :=
  Error "Python package not available. Please configure DMV_PACKAGE_URL or ensure package is installable.".

(** Line 81. *)
Definition validationDataVersions : list string :=
  ["1.2"; "1.3"; "1.4"; "1.4.1"; "1.4.2"; "1.5"; "master"].

Definition data_url (version : string) : string :=
  "data/validation_data_" +:+ version +:+ ".json".

Definition data_path (version : string) : string :=
  "/data/validation_data_" +:+ version +:+ ".json".

(** Lines 95-103: the body of the provisioning loop. *)
Definition loadValidationData (version : string) : M unit :=
  try_catch
    (do response <- ask (fun tr => fetch E tr (data_url version)) (EvFetch (data_url version));
     if ok response then
       do jsonData <- settle (text response);
       writeFile (data_path version) jsonData
     else ret tt)
    (fun e =>
       console LWarn ("Could not load validation data for version " +:+ version +:+ ":") (Some e)).

(** Lines 58-140. *)
Definition loadBundledModules : M unit :=
  try_catch
    (try_catch
       (run_setup InstallIndex >>
        set_pythonModulesLoaded >>
        console LLog "Python modules installed from PyPI" None)
       (fun pipError =>
          console LWarn "Could not install from PyPI, trying to load Python files directly:" (Some pipError) >>
          throw package_unavailable) >>
     run_setup MakeDataDir >>
     for_of validationDataVersions loadValidationData >>
     run_setup PatchLoader >>
     set_pythonModulesLoaded >>
     console LLog "Bundled modules and data loaded" None)
    (fun error =>
       console LError "Error loading bundled modules:" (Some error) >>
       throw error).

(** Lines 10-55.  The value returned at line 54 is the handle assigned at
    line 16: nothing else assigns [pyodide]. *)
Definition initializePyodide : M Handle :=
  fun w =>
    match pyodide w with
    | Some h => (Returns h, w)
    | None =>
        (console LLog "Loading Pyodide..." None >>
         do h <- ask (loadPyodide E) EvLoadPyodide;
         modify (with_pyodide h) >>
         console LLog "Pyodide loaded, installing packages..." None >>
         run_setup InstallHttpShim >>
         console LLog "Loading dmv_tool package..." None >>
         match packageUrl with
         | Some url =>
             try_catch
               (run_setup (InstallWheel url) >>
                set_pythonModulesLoaded >>
                console LLog "Python modules loaded from wheel" None)
               (fun error =>
                  console LWarn "Failed to load from wheel, trying bundled modules:" (Some error) >>
                  loadBundledModules)
         | None => loadBundledModules
         end >>
         ret h) w
    end.

Definition modules_not_loaded : JsError := Error "Python modules not loaded".

(** Lines 255-262. *)
Definition ensurePyodideReady : M unit :=
  (fun w =>
     match pyodide w with
     | None => (do _ <- initializePyodide; ret tt) w
     | Some _ => (Returns tt, w)
     end) >>
  (fun w =>
     if pythonModulesLoaded w then (Returns tt, w)
     else (Throws modules_not_loaded, w)).

(** Lines 267-272.  The promise is kept in its settled state. *)
Definition getPyodide : M Handle :=
  fun w =>
    match initializationPromise w with
    | Some p => (p, w)
    | None =>
        let (p, w') := initializePyodide w in
        (p, with_promise p w')
    end.

(** [document.getElementById(id)]: whether the page has the element. *)
Definition getElementById (id : string) : M bool :=
  fun w => (Returns (document_getElementById E (trace w) id), w).

(** Lines 275-298: what the module does when it is loaded.  The changes
    of [display] and the failure notice are made only on elements that the
    page has; the [pyodide-ready] event is dispatched in any case. *)
Definition module_load : M unit :=
  try_catch
    (do _ <- getPyodide;
     console LLog "Pyodide bridge ready" None >>
     do loadingEl <- getElementById "pyodide-loading";
     do mainContent <- getElementById "mainContent";
     (if loadingEl then modify (with_event (EvDisplay "pyodide-loading" "none"))
      else ret tt) >>
     (if mainContent then modify (with_event (EvDisplay "mainContent" "block"))
      else ret tt) >>
     modify (with_event EvHostReady))
    (fun error =>
       console LError "Failed to initialize Pyodide:" (Some error) >>
       do loadingEl <- getElementById "pyodide-loading";
       if loadingEl then modify (with_event (EvHostFailed (message error)))
       else ret tt).

(** Lines 158-161: [runPython] of the script that binds [log_data_str].
    Inside the modelled fragment the literal is evaluated here; outside it
    the environment decides whether the script raises and what it binds. *)
Definition run_log_literal (escapedLogData : string) : M unit :=
  match py_triple_quoted escapedLogData with
  | Some v =>
      modify (with_event (EvLogLiteral escapedLogData (Returns (Some (PyStr v))))) >>
      globals_set "log_data_str" (PyStr v)
  | None =>
      do bound <- ask (fun tr => runOtherLiteral E tr escapedLogData) (EvLogLiteral escapedLogData);
      match bound with
      | Some v => globals_set "log_data_str" v
      | None => ret tt
      end
  end.

Definition run_json_delegate (d : JsonDelegate) : M string :=
  ask (fun tr => runJsonDelegate E tr d) (EvJsonDelegate d).

Definition read_global (name : string) : M (option PyVal) :=
  fun w => (Returns (py_globals w !! name), w).

(** [pyodide.globals.set(name, JSON.stringify(v))]; [undefined] becomes
    [None]. *)
Definition set_json_global (name : string) (v : JsVal) : M unit :=
  do s <- settle (JSON_stringify E v);
  globals_set name (match s with Some t => PyStr t | None => PyNone end).

(** Lines 147-176. *)
Definition parseDatamodelLogs (logData : string) : M JsVal :=
  ensurePyodideReady >>
  try_catch
    (let escapedLogData := escapeLogData logData in
     run_log_literal escapedLogData >>
     do arg <- read_global "log_data_str";
     do result <- run_json_delegate (parse_datamodel_logs arg);
     settle (JSON_parse E result))
    (fun error =>
       console LError "Error parsing logs:" (Some error) >>
       throw (Error ("Failed to parse logs: " +:+ message error))).

(** Lines 181-202.  The script ends in [version if version else "master"]. *)
Definition detectSpecVersion (parsedData : JsVal) : M JsVal :=
  ensurePyodideReady >>
  try_catch
    (set_json_global "parsed_data_json" parsedData >>
     do arg <- read_global "parsed_data_json";
     do version <- ask (fun tr => runDetect E tr arg) (EvDetect arg);
     ret (to_js (if py_truthy version then version else PyStr "master")))
    (fun error =>
       console LError "Error detecting version:" (Some error) >>
       ret JNull).

(** Lines 207-231. *)
Definition validateDeviceConformance (parsedData : JsVal) (specVersion : string) : M JsVal :=
  ensurePyodideReady >>
  try_catch
    (set_json_global "parsed_data_json" parsedData >>
     globals_set "spec_version_str" (PyStr specVersion) >>
     do arg1 <- read_global "parsed_data_json";
     do arg2 <- read_global "spec_version_str";
     do result <- run_json_delegate (validate_device_conformance arg1 arg2);
     settle (JSON_parse E result))
    (fun error =>
       console LError "Error validating conformance:" (Some error) >>
       throw (Error ("Validation failed: " +:+ message error))).

Definition fallback_versions : JsVal :=
  JArr (JStr <$> ["1.2"; "1.3"; "1.4"; "1.4.1"; "1.4.2"; "1.5"; "master"]).

(** Lines 236-252. *)
Definition getSupportedVersions : M JsVal :=
  ensurePyodideReady >>
  try_catch
    (do result <- run_json_delegate SUPPORTED_SPEC_VERSIONS;
     settle (JSON_parse E result))
    (fun error =>
       console LError "Error getting supported versions:" (Some error) >>
       ret fallback_versions).

(** The four remote call wrappers. *)
Inductive Wrapper : Type :=
| WParseDatamodelLogs (logData : string)
| WDetectSpecVersion (parsedData : JsVal)
| WValidateDeviceConformance (parsedData : JsVal) (specVersion : string)
| WGetSupportedVersions.

Definition wrapper_body (c : Wrapper) : M JsVal :=
  match c with
  | WParseDatamodelLogs logData => parseDatamodelLogs logData
  | WDetectSpecVersion parsedData => detectSpecVersion parsedData
  | WValidateDeviceConformance parsedData specVersion =>
      validateDeviceConformance parsedData specVersion
  | WGetSupportedVersions => getSupportedVersions
  end.

(** A use of the module: the load of the module itself, a request for the
    runtime, or a remote call.  Uses follow one another: each is run until
    its promise has settled before the next one starts.  A call that
    starts while another one is suspended at an [await] is outside the
    model. *)
Inductive Call : Type :=
| CModuleLoad
| CGetPyodide
| CRemote (c : Wrapper).

Definition run_call (c : Call) (w : World) : World :=
  match c with
  | CModuleLoad => snd (module_load w)
  | CGetPyodide => snd (getPyodide w)
  | CRemote c => snd (wrapper_body c w)
  end.

(** The worlds the module can be in between two calls. *)
Inductive reachable : World -> Prop :=
| reachable_initial : reachable initial
| reachable_call c w : reachable w -> reachable (run_call c w).

End Bridge.

Arguments for_of : simpl never.

(** ** Vocabulary of the properties *)

(** The lifecycle of the specification, read off the memoized promise.
    A promise is stored settled, so [Initializing] is never observed
    between two calls. *)
Inductive ReadinessState : Type :=
| Uninitialized
| Initializing
| Ready (h : Handle)
| Failed (e : JsError).

Definition readiness (w : World) : ReadinessState :=
  match initializationPromise w with
  | None => Uninitialized
  | Some (Returns h) => Ready h
  | Some (Throws e) => Failed e
  end.

(** The interactions a call adds to the trace. *)
Definition new_events (w w' : World) : Trace :=
  drop (length (trace w)) (trace w').

(** A script that names a delegate was run. *)
Definition is_delegate (e : Event) : bool :=
  match e with
  | EvJsonDelegate _ _ | EvDetect _ _ => true
  | _ => false
  end.

Definition not_delegate (e : Event) : bool := negb (is_delegate e).

Definition invokes_delegate (E : Env) (c : Wrapper) (w : World) : Prop :=
  exists e, e ∈ new_events w (snd (wrapper_body E c w)) /\ is_delegate e = true.

(** What the provisioning loop may do. *)
Definition is_provisioning (e : Event) : bool :=
  match e with
  | EvFetch _ _ | EvWriteFile _ _ _ | EvConsole _ _ _ => true
  | _ => false
  end.

(** What marshaling, invocation and unmarshaling may do. *)
Definition is_remote (e : Event) : bool :=
  match e with
  | EvConsole _ _ _ | EvLogLiteral _ _ | EvGlobalsSet _ _
  | EvJsonDelegate _ _ | EvDetect _ _ => true
  | _ => false
  end.

Definition is_flag (e : Event) : bool :=
  match e with
  | EvModulesLoaded => true
  | _ => false
  end.

(** Provisioning of validation data and the patch of the data loader. *)
Definition is_data_step (e : Event) : bool :=
  match e with
  | EvFetch _ _ | EvWriteFile _ _ _ | EvSetup MakeDataDir _ | EvSetup PatchLoader _ => true
  | _ => false
  end.

(** [w'] differs from [w] by interactions that all satisfy [P]; the module
    variables are untouched. *)
Definition frame (P : Event -> bool) (w w' : World) : Prop :=
  pyodide w' = pyodide w /\
  pythonModulesLoaded w' = pythonModulesLoaded w /\
  initializationPromise w' = initializationPromise w /\
  exists evs, trace w' = trace w ++ evs /\ forallb P evs = true.

(** Steps 1 to 3 of initialization are on record in [tr]: the runtime was
    booted, the support package installed, and the validation package
    installed by one of the two strategies. *)
Definition installed (tr : Trace) : Prop :=
  (exists h, EvLoadPyodide (Returns h) ∈ tr) /\
  EvSetup InstallHttpShim (Returns tt) ∈ tr /\
  ((exists url, EvSetup (InstallWheel url) (Returns tt) ∈ tr) \/
   EvSetup InstallIndex (Returns tt) ∈ tr).

(** Every assignment of [true] to [pythonModulesLoaded] comes after steps
    1 to 3. *)
Definition flag_guarded (tr : Trace) : Prop :=
  forall pre post, tr = pre ++ EvModulesLoaded :: post -> installed pre.

(** The invariant of the module between two calls. *)
Definition well_formed (w : World) : Prop :=
  (pythonModulesLoaded w = true -> is_Some (pyodide w)) /\
  (pythonModulesLoaded w = true -> EvModulesLoaded ∈ trace w) /\
  flag_guarded (trace w).

Definition succeeded {A} (r : Outcome A) : bool :=
  match r with
  | Returns _ => true
  | Throws _ => false
  end.

(** The package installations on record, in order, with their success. *)
Definition install_attempt (e : Event) : option (SetupScript * bool) :=
  match e with
  | EvSetup (InstallWheel url) r => Some (InstallWheel url, succeeded r)
  | EvSetup InstallIndex r => Some (InstallIndex, succeeded r)
  | _ => None
  end.

Definition install_attempts (tr : Trace) : list (SetupScript * bool) :=
  omap install_attempt tr.

(** [sub] occurs in [s]. *)
Definition contains (s sub : string) : Prop :=
  exists pre post, s = pre +:+ sub +:+ post.

(** The file that provisioning writes for version [v] when [data v] is the
    document fetched for it, and the files written for the versions [vs]. *)
Definition document (data : string -> string) (v : string) : string * string :=
  (data_path v, data v).

Definition provisioned (data : string -> string) (vs : list string) : gmap string string :=
  list_to_map (document data <$> vs).

(** The warning logged at line 102 when provisioning version [v] threw [e]. *)
Definition provisioning_warning (v : string) (e : JsError) : Event :=
  EvConsole LWarn ("Could not load validation data for version " +:+ v +:+ ":") (Some e).

(** The world once the module has been loaded and its own request for the
    runtime has settled. *)
Definition after_load (E : Env) : World := run_call E CModuleLoad initial.

(** ** Sample environments *)

Definition toy_JSON_parse (s : string) : Outcome JsVal :=
  if String.eqb s "[]" then Returns (JArr [])
  else if String.eqb s "{}" then Returns (JObj [])
  else Throws (Error "SyntaxError: Unexpected token").

Definition toy_JSON_stringify (v : JsVal) : Outcome (option string) :=
  match v with
  | JUndefined => Returns None
  | JPyProxy _ => Throws (Error "TypeError: cyclic object value")
  | JArr _ => Returns (Some "[]")
  | _ => Returns (Some "{}")
  end.

Definition sample_env (url : option string) (boot : Trace -> Outcome Handle)
    (setup : SetupScript -> Outcome unit) (fetched : string -> Outcome Response)
    (json : Outcome string) (detect : Outcome PyVal) : Env :=
  {| DMV_PACKAGE_URL := url;
     loadPyodide := boot;
     runSetup := fun _ s => setup s;
     fetch := fun _ u => fetched u;
     FS_writeFile := fun _ _ _ => Returns tt;
     runOtherLiteral := fun _ _ => Throws (Error "SyntaxError: invalid syntax");
     runJsonDelegate := fun _ _ => json;
     runDetect := fun _ _ => detect;
     JSON_parse := toy_JSON_parse;
     JSON_stringify := toy_JSON_stringify;
     document_getElementById := fun _ _ => true |}.

Definition boot_ok : Trace -> Outcome Handle := fun _ => Returns 1.

Definition setup_ok : SetupScript -> Outcome unit := fun _ => Returns tt.

Definition fetch_ok : string -> Outcome Response :=
  fun u => Returns (mkResponse true (Returns ("{}"))).

(** Everything works; no package URL is configured. *)
Definition env_ok : Env :=
  sample_env None boot_ok setup_ok fetch_ok (Returns "[]") (Returns (PyStr "1.4")).

(** The index installation works, the patch of the data loader raises. *)
Definition env_patch_fails : Env :=
  sample_env None boot_ok
    (fun s => match s with
              | PatchLoader => Throws (Error "ModuleNotFoundError: No module named 'validators'")
              | _ => Returns tt
              end)
    fetch_ok (Returns "[]") (Returns (PyStr "1.4")).

Definition is_boot (e : Event) : bool :=
  match e with
  | EvLoadPyodide _ => true
  | _ => false
  end.

(** How often [loadPyodide] was called. *)
Definition boots (tr : Trace) : nat := length (List.filter is_boot tr).

(** The first [loadPyodide] is rejected, later ones are fulfilled. *)
Definition env_flaky_boot : Env :=
  sample_env None
    (fun tr => if existsb is_boot tr then Returns 1 else Throws (Error "NetworkError: failed to fetch pyodide.js"))
    setup_ok fetch_ok (Returns "[]") (Returns (PyStr "1.4")).

(** A package URL is configured and the wheel installs. *)
Definition env_wheel : Env :=
  sample_env (Some "https://example.org/dmv_tool-1.0-py3-none-any.whl")
    boot_ok setup_ok fetch_ok (Returns "[]") (Returns (PyStr "1.4")).

(** No package URL, and the package is not on the index. *)
Definition env_no_package : Env :=
  sample_env None boot_ok
    (fun s => match s with
              | InstallIndex => Throws (Error "ValueError: Can't find a pure Python 3 wheel for 'esp-matter-dm-validator'")
              | _ => Returns tt
              end)
    fetch_ok (Returns "[]") (Returns (PyStr "1.4")).

(** A package URL is configured, but neither strategy installs. *)
Definition env_both_fail : Env :=
  sample_env (Some "https://example.org/dmv_tool-1.0-py3-none-any.whl") boot_ok
    (fun s => match s with
              | InstallWheel _ => Throws (Error "ValueError: Can't fetch wheel")
              | InstallIndex => Throws (Error "ValueError: Can't find a pure Python 3 wheel for 'esp-matter-dm-validator'")
              | _ => Returns tt
              end)
    fetch_ok (Returns "[]") (Returns (PyStr "1.4")).

Definition sample_document (version : string) : string :=
  "{version: " +:+ version +:+ "}".

(** The document of version 1.4.1 cannot be fetched. *)
Definition env_fetch_141_fails : Env :=
  sample_env None boot_ok setup_ok
    (fun u => if String.eqb u (data_url "1.4.1") then Throws (Error "TypeError: Failed to fetch")
              else Returns (mkResponse true
                     (Returns (sample_document (String.substring 21 (String.length u - 26) u)))))
    (Returns "[]") (Returns (PyStr "1.4")).

(** The delegates raise. *)
Definition env_delegate_fails : Env :=
  sample_env None boot_ok setup_ok fetch_ok
    (Throws (Error "PythonError: ValueError: no endpoints found"))
    (Throws (Error "PythonError: KeyError: 'endpoints'")).

(** Version detection finds nothing. *)
Definition env_detect_none : Env :=
  sample_env None boot_ok setup_ok fetch_ok (Returns "[]") (Returns PyNone).

(** ** Vocabulary of further properties *)

(** A sequence of uses of the module, in order. *)
Definition run_calls (E : Env) (calls : list Call) (w : World) : World :=
  foldl (fun w c => run_call E c w) w calls.

(** What a call keeps of the module variables: a handle, a loaded flag and
    a settled promise stay what they are. *)
Definition persists (w w' : World) : Prop :=
  (forall h, pyodide w = Some h -> pyodide w' = Some h) /\
  (pythonModulesLoaded w = true -> pythonModulesLoaded w' = true) /\
  (forall p, initializationPromise w = Some p -> initializationPromise w' = Some p).

(** What initialization may do. *)
Definition is_init_event (e : Event) : bool :=
  match e with
  | EvConsole _ _ _ | EvLoadPyodide _ | EvSetup _ _ | EvFetch _ _
  | EvWriteFile _ _ _ | EvModulesLoaded => true
  | _ => false
  end.

(** What a call may do once a handle exists. *)
Definition is_after_boot (e : Event) : bool :=
  match e with
  | EvLoadPyodide _ | EvSetup _ _ | EvFetch _ _ | EvWriteFile _ _ _
  | EvModulesLoaded => false
  | _ => true
  end.

(** Every file of the runtime is the data file of a listed version and
    holds a document that was fetched from the matching URL with an OK
    response and then written. *)
Definition file_provenance (w : World) : Prop :=
  forall path d, FS w !! path = Some d ->
    exists v, v ∈ validationDataVersions /\ path = data_path v /\
      EvFetch (data_url v) (Returns (mkResponse true (Returns d))) ∈ trace w /\
      EvWriteFile path d (Returns tt) ∈ trace w.

(** The URLs fetched, in order. *)
Definition fetched_url (e : Event) : option string :=
  match e with
  | EvFetch url _ => Some url
  | _ => None
  end.

Definition fetched (tr : Trace) : list string := omap fetched_url tr.

Definition is_patch (e : Event) : bool :=
  match e with
  | EvSetup PatchLoader _ => true
  | _ => false
  end.

(** The Python value that [pyodide.globals.set] stores for the result of
    [JSON.stringify]. *)
Definition json_text (s : option string) : PyVal :=
  match s with
  | Some t => PyStr t
  | None => PyNone
  end.

(** JavaScript truthiness. *)
Definition js_truthy (v : JsVal) : bool :=
  match v with
  | JUndefined | JNull => false
  | JBool b => b
  | JNum n => negb (n =? 0)%Z
  | JFloat x => match x with S754_zero _ | S754_nan => false | _ => true end
  | JStr s => negb (String.eqb s EmptyString)
  | JArr _ | JObj _ | JPyProxy _ => true
  end.

(** The character [c], and the pair [c d], occur in [s]. *)
Fixpoint mentions (c : ascii) (s : string) : bool :=
  match s with
  | EmptyString => false
  | String a rest => Ascii.eqb a c || mentions c rest
  end.

Fixpoint mentions_pair (c d : ascii) (s : string) : bool :=
  match s with
  | EmptyString => false
  | String a rest =>
      match rest with
      | String b _ => (Ascii.eqb a c && Ascii.eqb b d) || mentions_pair c d rest
      | EmptyString => false
      end
  end.

(** No validation document can be fetched. *)
Definition env_no_data : Env :=
  sample_env None boot_ok setup_ok (fun _ => Throws (Error "TypeError: Failed to fetch"))
    (Returns "[]") (Returns (PyStr "1.4")).

(** The delegates answer with a text that is not JSON: [json.dumps] writes
    a float that is not a number as [NaN]. *)
Definition env_bad_json : Env :=
  sample_env None boot_ok setup_ok fetch_ok (Returns "NaN") (Returns (PyStr "1.4")).

(** The label under which each wrapper reports a caught error to the
    console (lines 173, 199, 228 and 249). *)
Definition error_label (c : Wrapper) : string :=
  match c with
  | WParseDatamodelLogs _ => "Error parsing logs:"
  | WDetectSpecVersion _ => "Error detecting version:"
  | WValidateDeviceConformance _ _ => "Error validating conformance:"
  | WGetSupportedVersions => "Error getting supported versions:"
  end.

(** The error with which a script of a remote call ended, if it raised. *)
Definition failure_of (e : Event) : option JsError :=
  match e with
  | EvLogLiteral _ (Throws err) | EvJsonDelegate _ (Throws err)
  | EvDetect _ (Throws err) => Some err
  | _ => None
  end.

(** Version detection answers with the float that is not a number. *)
Definition env_detect_nan : Env :=
  sample_env None boot_ok setup_ok fetch_ok (Returns "[]") (Returns (PyFloat S754_nan)).

(** A response from which provisioning gets a document: [fetch] was
    fulfilled, the response is [ok], and its [text()] was fulfilled. *)
Definition delivers (r : Outcome Response) : bool :=
  match r with
  | Returns resp => ok resp && succeeded (text resp)
  | Throws _ => false
  end.

(** The error that line 102 logs for a request: the one [fetch] was
    rejected with, or the one [text()] of an [ok] response was rejected
    with; none for a response that is not [ok], which lines 97-100 pass
    over. *)
Definition logged_error (r : Outcome Response) : option JsError :=
  match r with
  | Throws e => Some e
  | Returns resp =>
      if ok resp then
        match text resp with
        | Throws e => Some e
        | Returns _ => None
        end
      else None
  end.

Definition is_console (e : Event) : bool :=
  match e with
  | EvConsole _ _ _ => true
  | _ => false
  end.

(** What was written to the console, in order. *)
Definition console_output (tr : Trace) : list Event := List.filter is_console tr.

(** The document of version 1.4.1 is not on the server: [fetch] is
    fulfilled with a response that is not [ok]. *)
Definition env_fetch_141_not_found : Env :=
  sample_env None boot_ok setup_ok
    (fun u => if String.eqb u (data_url "1.4.1")
              then Returns (mkResponse false (Returns "404 Not Found"))
              else Returns (mkResponse true
                     (Returns (sample_document (String.substring 21 (String.length u - 26) u)))))
    (Returns "[]") (Returns (PyStr "1.4")).

(** * Proofs *)

(** ** Frames *)

Lemma frame_refl P w : frame P w w.
Proof.
  repeat split; try done. exists []. by rewrite app_nil_r.
Qed.

Lemma frame_trans P w1 w2 w3 : frame P w1 w2 -> frame P w2 w3 -> frame P w1 w3.
Proof.
  intros (H1 & H2 & H3 & evs & H4 & H5) (K1 & K2 & K3 & evs' & K4 & K5).
  repeat split; try congruence.
  exists (evs ++ evs'). rewrite K4, H4, app_assoc. split; [done|].
  by rewrite forallb_app, H5, K5.
Qed.

Lemma forallb_weaken (P Q : Event -> bool) evs :
  (forall e, P e = true -> Q e = true) ->
  forallb P evs = true -> forallb Q evs = true.
Proof.
  intros HPQ. rewrite !forallb_forall. auto.
Qed.

Lemma new_events_app w w' evs :
  trace w' = trace w ++ evs -> new_events w w' = evs.
Proof.
  intros H. unfold new_events. rewrite H. by rewrite drop_app_length.
Qed.

(** ** Running bridge code symbolically *)

Ltac run_m :=
  cbv beta iota zeta delta
    [bind try_catch ask console modify settle ret throw writeFile run_setup
     set_pythonModulesLoaded globals_set read_global set_json_global
     run_json_delegate];
  simpl.

Ltac frame_now :=
  repeat split; try done; simpl; rewrite <- ?app_assoc; simpl;
  eexists; split; [reflexivity | done].

Lemma loadValidationData_frame E version w :
  fst (loadValidationData E version w) = Returns tt /\
  frame is_provisioning w (snd (loadValidationData E version w)).
Proof.
  unfold loadValidationData. run_m.
  destruct (fetch E (trace w) (data_url version)) as [response|e]; simpl.
  - destruct (ok response); simpl.
    + destruct (text response) as [jsonData|e]; simpl.
      * destruct (FS_writeFile E _ _ _) as [[]|e]; simpl.
        all: split; [done|]; frame_now.
      * split; [done|]. frame_now.
    + split; [done|]. frame_now.
  - split; [done|]. frame_now.
Qed.

Lemma for_of_cons {A} (x : A) l body : for_of (x :: l) body = (body x >> for_of l body).
Proof. reflexivity. Qed.

Lemma provisioning_frame E vs w :
  fst (for_of vs (loadValidationData E) w) = Returns tt /\
  frame is_provisioning w (snd (for_of vs (loadValidationData E) w)).
Proof.
  revert w. induction vs as [|v vs IH]; intros w.
  - split; [done|apply frame_refl].
  - rewrite for_of_cons. unfold bind.
    destruct (loadValidationData_frame E v w) as [Hr Hf].
    destruct (loadValidationData E v w) as [r w1]. simpl in *. subst r.
    destruct (IH w1) as [Hr' Hf']. split; [done|].
    eapply frame_trans; eauto.
Qed.

Ltac loop_case E :=
  match goal with
  | |- context [for_of validationDataVersions (loadValidationData E) ?W] =>
      let Hr := fresh "Hloop" in
      let Hf := fresh "Hframe" in
      let r := fresh "r" in
      let wl := fresh "wl" in
      destruct (provisioning_frame E validationDataVersions W) as [Hr Hf];
      destruct (for_of validationDataVersions (loadValidationData E) W) as [r wl] eqn:Hrun;
      simpl in Hr, Hf; subst r;
      destruct Hf as (Hpy & Hfl & Hpr & evs & Htr & Hevs);
      simpl in Hpy, Hfl, Hpr, Htr
  end.

Ltac bundled_cases E :=
  unfold loadBundledModules; run_m;
  destruct (runSetup E _ InstallIndex) as [[]|?] eqn:Hindex; simpl;
  [ destruct (runSetup E _ MakeDataDir) as [[]|?] eqn:Hmkdir; simpl;
    [ loop_case E; run_m;
      destruct (runSetup E _ PatchLoader) as [[]|?] eqn:Hpatch; simpl
    | ]
  | ].

(** The eleven ways through [initializePyodide] when no handle exists. *)
Ltac init_cases E w :=
  unfold initializePyodide;
  destruct (pyodide w) as [?h|] eqn:Hpyodide; [try discriminate|];
  run_m;
  destruct (loadPyodide E _) as [?h|?] eqn:Hboot; simpl;
  [ destruct (runSetup E _ InstallHttpShim) as [[]|?] eqn:Hshim; simpl;
    [ destruct (packageUrl E) as [?url|] eqn:Hurl; run_m;
      [ destruct (runSetup E _ (InstallWheel _)) as [[]|?] eqn:Hwheel; simpl;
        [ | bundled_cases E ]
      | bundled_cases E ]
    | ]
  | ].

Lemma provisioning_not_delegate evs :
  forallb is_provisioning evs = true -> forallb not_delegate evs = true.
Proof. apply forallb_weaken. by intros []. Qed.

Lemma provisioning_not_flag evs :
  forallb is_provisioning evs = true -> forallb (fun e => negb (is_flag e)) evs = true.
Proof. apply forallb_weaken. by intros []. Qed.

(** Normalise the trace of the final world into [trace w ++ new]. *)
Ltac flat_trace :=
  simpl;
  repeat match goal with
         | H : trace ?wl = _ |- context [trace ?wl] => rewrite H
         end;
  rewrite <- ?app_assoc; simpl.

Lemma initializePyodide_shape E w :
  pyodide w = None ->
  initializationPromise (snd (initializePyodide E w)) = initializationPromise w /\
  (exists new, trace (snd (initializePyodide E w)) = trace w ++ new /\
               forallb not_delegate new = true) /\
  (forall h, fst (initializePyodide E w) = Returns h ->
     pyodide (snd (initializePyodide E w)) = Some h /\
     pythonModulesLoaded (snd (initializePyodide E w)) = true) /\
  (pythonModulesLoaded (snd (initializePyodide E w)) = true ->
     pythonModulesLoaded w = true \/ is_Some (pyodide (snd (initializePyodide E w)))).
Proof.
  intros Hnone. init_cases E w.
  all: split; [done|].
  all: split; [flat_trace; eexists; split; [reflexivity|]; simpl;
               rewrite ?forallb_app; simpl;
               rewrite ?provisioning_not_delegate by done; done|].
  all: split; [intros h' [= <-] || (intros; discriminate); try done; split; congruence|].
  all: try (intros; right; rewrite ?Hpy; simpl; eauto; fail).
  all: intros; left; done.
Qed.

(** ** Traces in which the flag is guarded *)

Lemma elem_of_snoc_here (e : Event) tr : e ∈ tr ++ [e].
Proof. set_solver. Qed.

Lemma elem_of_snoc_there (e e' : Event) tr : e ∈ tr -> e ∈ tr ++ [e'].
Proof. set_solver. Qed.

Lemma elem_of_app_there (e : Event) tr evs : e ∈ tr -> e ∈ tr ++ evs.
Proof. set_solver. Qed.

Lemma installed_app tr evs : installed tr -> installed (tr ++ evs).
Proof.
  intros ([h Hb] & Hs & Hp). split; [|split].
  - exists h. by apply elem_of_app_there.
  - by apply elem_of_app_there.
  - destruct Hp as [[url Hu]|Hi]; [left; exists url|right]; by apply elem_of_app_there.
Qed.

Lemma flag_guarded_nil : flag_guarded [].
Proof. intros pre post H. by destruct pre. Qed.

Lemma flag_guarded_snoc tr e :
  flag_guarded tr -> (is_flag e = true -> installed tr) -> flag_guarded (tr ++ [e]).
Proof.
  intros Hg He pre post Heq.
  destruct post as [|x post _] using rev_ind.
  - apply app_inj_tail in Heq as [-> ->]. by apply He.
  - change (pre ++ EvModulesLoaded :: post ++ [x])
      with (pre ++ (EvModulesLoaded :: post) ++ [x]) in Heq.
    rewrite app_assoc in Heq. apply app_inj_tail in Heq as [Heq _].
    by apply (Hg pre post).
Qed.

Lemma flag_guarded_app tr evs :
  flag_guarded tr -> forallb (fun e => negb (is_flag e)) evs = true ->
  flag_guarded (tr ++ evs).
Proof.
  intros Hg. induction evs as [|x evs IH] using rev_ind; intros Hevs.
  - by rewrite app_nil_r.
  - rewrite forallb_app in Hevs. apply andb_prop in Hevs as [Hevs Hx].
    rewrite app_assoc. apply flag_guarded_snoc; [by apply IH|].
    simpl in Hx. intros Hflag. rewrite Hflag in Hx. discriminate.
Qed.

Lemma frame_well_formed (P : Event -> bool) w w' :
  (forall e, P e = true -> is_flag e = false) ->
  frame P w w' -> well_formed w -> well_formed w'.
Proof.
  intros HP (Hpy & Hfl & _ & evs & Htr & Hevs) (H1 & H2 & H3).
  unfold well_formed. rewrite Hpy, Hfl, Htr. split; [|split].
  - done.
  - intros H. apply elem_of_app_there. auto.
  - apply flag_guarded_app; [done|].
    eapply forallb_weaken; [|exact Hevs]. intros e He. by rewrite (HP e He).
Qed.

Ltac in_list :=
  solve [repeat first [apply list_elem_of_here | apply list_elem_of_further]].

Create HintDb trace.
#[local] Hint Resolve elem_of_snoc_here elem_of_snoc_there elem_of_app_there : trace.

(** An event is somewhere in a trace that grew at its end. *)
Ltac in_trace := solve [eauto 30 with trace].

Ltac installed_now :=
  repeat match goal with
         | H : trace ?wl = _ |- context [trace ?wl] => rewrite H
         end;
  split; [eexists; in_trace | split; [in_trace | first [right; in_trace | left; eexists; in_trace]]].

Ltac guarded_now :=
  repeat match goal with
         | H : trace ?wl = _ |- context [trace ?wl] => rewrite H
         end;
  repeat first
    [ assumption
    | apply flag_guarded_snoc;
      [ | first [ (intros Hflag; discriminate Hflag) | (intros _; installed_now) ] ]
    | apply flag_guarded_app; [ | by apply provisioning_not_flag ] ].

Lemma initializePyodide_well_formed E w :
  pyodide w = None -> well_formed w -> well_formed (snd (initializePyodide E w)).
Proof.
  intros Hnone (H1 & H2 & H3). init_cases E w.
  all: rewrite ?Hpyodide in H1.
  all: unfold well_formed; simpl; rewrite ?Hpy, ?Hfl.
  all: split; [intros Hflag; rewrite ?Hpyodide; first [by apply H1 | by eexists]|].
  all: split; [intros Hflag; rewrite ?Htr; in_trace|].
  all: guarded_now.
Qed.

(** ** The readiness gate *)

Lemma ensurePyodideReady_open E w h :
  pyodide w = Some h -> pythonModulesLoaded w = true ->
  ensurePyodideReady E w = (Returns tt, w).
Proof.
  intros Hpy Hfl. unfold ensurePyodideReady, bind. by rewrite Hpy, Hfl.
Qed.

Lemma ensurePyodideReady_closed E w h :
  pyodide w = Some h -> pythonModulesLoaded w = false ->
  ensurePyodideReady E w = (Throws modules_not_loaded, w).
Proof.
  intros Hpy Hfl. unfold ensurePyodideReady, bind. by rewrite Hpy, Hfl.
Qed.

(** The world after the gate is the world before it, or the world that
    initialization leaves. *)
Lemma ensurePyodideReady_world E w :
  snd (ensurePyodideReady E w) =
  match pyodide w with
  | Some _ => w
  | None => snd (initializePyodide E w)
  end.
Proof.
  unfold ensurePyodideReady, bind, ret.
  destruct (pyodide w); simpl.
  - by destruct (pythonModulesLoaded w).
  - destruct (initializePyodide E w) as [[h|e] w1]; simpl; [|done].
    by destruct (pythonModulesLoaded w1).
Qed.

Lemma ensurePyodideReady_returns E w w1 :
  ensurePyodideReady E w = (Returns tt, w1) ->
  is_Some (pyodide w1) /\ pythonModulesLoaded w1 = true.
Proof.
  unfold ensurePyodideReady, bind, ret.
  destruct (pyodide w) as [h|] eqn:Hpy; simpl.
  - destruct (pythonModulesLoaded w) eqn:Hfl; intros [= <-]. by rewrite Hpy.
  - destruct (initializePyodide_shape E w Hpy) as (_ & _ & Hret & _).
    destruct (initializePyodide E w) as [[h|e] w0]; simpl in *; [|done].
    destruct (Hret h eq_refl) as [Hpy0 Hfl0]. rewrite Hfl0.
    intros [= <-]. by rewrite Hpy0.
Qed.

Lemma ensurePyodideReady_quiet E w :
  initializationPromise (snd (ensurePyodideReady E w)) = initializationPromise w /\
  exists new, trace (snd (ensurePyodideReady E w)) = trace w ++ new /\
              forallb not_delegate new = true.
Proof.
  rewrite ensurePyodideReady_world.
  destruct (pyodide w) eqn:Hpy.
  - split; [done|]. exists []. by rewrite app_nil_r.
  - destruct (initializePyodide_shape E w Hpy) as (Hpr & Hnew & _). done.
Qed.

Lemma ensurePyodideReady_well_formed E w :
  well_formed w -> well_formed (snd (ensurePyodideReady E w)).
Proof.
  rewrite ensurePyodideReady_world.
  destruct (pyodide w) eqn:Hpy; [done|].
  by apply initializePyodide_well_formed.
Qed.

(** ** Marshaling, invocation, unmarshaling *)

Ltac wrapper_cases E c w :=
  destruct c as [logData|parsedData|parsedData specVersion|]; simpl;
  [ unfold parseDatamodelLogs, run_log_literal
  | unfold detectSpecVersion
  | unfold validateDeviceConformance
  | unfold getSupportedVersions ];
  unfold bind at 1;
  destruct (ensurePyodideReady E w) as [[[]|?e] w1] eqn:Hgate.

Ltac body_cases E :=
  run_m;
  repeat first
    [ progress simpl
    | match goal with
      | |- context [py_triple_quoted ?s] =>
          destruct (py_triple_quoted s) as [?v|] eqn:?Hliteral; run_m
      | |- context [runOtherLiteral E ?t ?s] =>
          destruct (runOtherLiteral E t s) as [[?v|]|?e] eqn:?Hother; run_m
      | |- context [JSON_stringify E ?v] =>
          destruct (JSON_stringify E v) as [[?s|]|?e] eqn:?Hstringify; run_m
      | |- context [runDetect E ?t ?a] =>
          destruct (runDetect E t a) as [?v|?e] eqn:?Hdetect; run_m
      | |- context [runJsonDelegate E ?t ?d] =>
          destruct (runJsonDelegate E t d) as [?s|?e] eqn:?Hdelegate; run_m
      | |- context [JSON_parse E ?s] =>
          destruct (JSON_parse E s) as [?v|?e] eqn:?Hparse; run_m
      end ].

Lemma wrapper_body_frame E c w :
  frame is_remote (snd (ensurePyodideReady E w)) (snd (wrapper_body E c w)).
Proof.
  wrapper_cases E c w; simpl.
  all: try apply frame_refl.
  all: body_cases E.
  all: frame_now.
Qed.

Lemma remote_not_flag e : is_remote e = true -> is_flag e = false.
Proof. by destruct e. Qed.

Lemma wrapper_body_well_formed E c w :
  well_formed w -> well_formed (snd (wrapper_body E c w)).
Proof.
  intros Hw. eapply frame_well_formed; [apply remote_not_flag|apply wrapper_body_frame|].
  by apply ensurePyodideReady_well_formed.
Qed.

(** ** The memoized promise *)

Lemma getPyodide_memoized E w p :
  initializationPromise w = Some p -> getPyodide E w = (p, w).
Proof. intros H. unfold getPyodide. by rewrite H. Qed.

Lemma getPyodide_settles E w :
  initializationPromise (snd (getPyodide E w)) = Some (fst (getPyodide E w)).
Proof.
  unfold getPyodide. destruct (initializationPromise w) eqn:H; [done|].
  by destruct (initializePyodide E w).
Qed.

(** A second request answers as the first did, and does nothing. *)
Lemma getPyodide_idempotent E w :
  getPyodide E (snd (getPyodide E w)) = (fst (getPyodide E w), snd (getPyodide E w)).
Proof. apply getPyodide_memoized, getPyodide_settles. Qed.

Lemma initializePyodide_any_well_formed E w :
  well_formed w -> well_formed (snd (initializePyodide E w)).
Proof.
  intros Hw. destruct (pyodide w) eqn:Hpy.
  - unfold initializePyodide. by rewrite Hpy.
  - by apply initializePyodide_well_formed.
Qed.

Lemma getPyodide_well_formed E w :
  well_formed w -> well_formed (snd (getPyodide E w)).
Proof.
  intros Hw. unfold getPyodide. destruct (initializationPromise w); [done|].
  pose proof (initializePyodide_any_well_formed E w Hw) as Hw'.
  by destruct (initializePyodide E w).
Qed.

(** The page has, or has not, the elements that the load of the module
    looks for. *)
Ltac page_cases E :=
  unfold getElementById; run_m;
  repeat match goal with
         | |- context [document_getElementById E ?tr ?id] =>
             destruct (document_getElementById E tr id); simpl
         end.

Lemma module_load_well_formed E w :
  well_formed w -> well_formed (snd (module_load E w)).
Proof.
  intros Hw. unfold module_load. run_m.
  pose proof (getPyodide_well_formed E w Hw) as Hw'.
  destruct (getPyodide E w) as [[h|e] w1]; simpl in *; page_cases E.
  all: eapply (frame_well_formed (fun e => negb (is_flag e)));
    [intros ev; apply negb_true_iff| |exact Hw'].
  all: frame_now.
Qed.

Lemma initial_well_formed : well_formed initial.
Proof.
  split; [done|]. split; [done|]. apply flag_guarded_nil.
Qed.

Lemma reachable_well_formed E w : reachable E w -> well_formed w.
Proof.
  induction 1 as [|c w _ IH]; [apply initial_well_formed|].
  destruct c; simpl.
  - by apply module_load_well_formed.
  - by apply getPyodide_well_formed.
  - by apply wrapper_body_well_formed.
Qed.

Lemma reachable_after_load E : reachable E (after_load E).
Proof. apply reachable_call, reachable_initial. Qed.

(** Between two calls, a loaded flag means that the gate is open. *)
Lemma reachable_gate_open E w :
  reachable E w -> pythonModulesLoaded w = true ->
  ensurePyodideReady E w = (Returns tt, w).
Proof.
  intros Hr Hfl. destruct (reachable_well_formed E w Hr) as (H1 & _).
  destruct (H1 Hfl) as [h Hpy]. by eapply ensurePyodideReady_open.
Qed.

(** Read the events of a call off its final trace. *)
Ltac new_events_now :=
  unfold new_events; simpl; rewrite <- ?app_assoc; rewrite ?drop_app_length; simpl.

(** Membership in an explicit list of events. *)
Ltac invert_in H :=
  repeat (apply elem_of_cons in H as [H|H];
          [ first [ discriminate H | injection H as ?; subst ] | ]);
  try (by apply elem_of_nil in H).

Lemma bind_gate_open {A} E (body : M A) w w1 :
  ensurePyodideReady E w = (Returns tt, w1) ->
  (ensurePyodideReady E >> body) w = body w1.
Proof. intros H. unfold bind. by rewrite H. Qed.

Lemma bind_gate_closed {A} E (body : M A) w e w1 :
  ensurePyodideReady E w = (Throws e, w1) ->
  (ensurePyodideReady E >> body) w = (Throws e, w1).
Proof. intros H. unfold bind. by rewrite H. Qed.

(** The gate itself runs no delegate script. *)
Lemma gate_events E w r w1 :
  ensurePyodideReady E w = (r, w1) ->
  exists evs, trace w1 = trace w ++ evs /\ forallb not_delegate evs = true.
Proof.
  intros Hgate. destruct (ensurePyodideReady_quiet E w) as (_ & evs & Htr & Hevs).
  rewrite Hgate in Htr. by exists evs.
Qed.

Lemma quiet_no_delegate evs e :
  forallb not_delegate evs = true -> e ∈ evs -> is_delegate e = true -> False.
Proof.
  intros Hevs Hin Hdel. rewrite forallb_forall in Hevs.
  apply list_elem_of_In, Hevs in Hin. unfold not_delegate in Hin.
  by rewrite Hdel in Hin.
Qed.

(** Read the events of a call off its final trace, when the gate added
    [evs] to the trace. *)
Ltac call_events Htr :=
  unfold new_events; simpl; rewrite Htr; rewrite <- ?app_assoc;
  rewrite ?drop_app_length; simpl.

(** An event of the call that is a delegate event is not one of the gate's. *)
Ltac invert_call H Hevs :=
  apply elem_of_app in H as [H|H];
  [ exfalso; by apply (quiet_no_delegate _ _ Hevs H) | invert_in H ].

(** ** The gate in front of the delegates *)

Lemma wrapper_body_throws E c w e w1 :
  ensurePyodideReady E w = (Throws e, w1) -> wrapper_body E c w = (Throws e, w1).
Proof.
  intros H. destruct c; simpl.
  all: unfold parseDatamodelLogs, detectSpecVersion, validateDeviceConformance,
         getSupportedVersions.
  all: unfold bind at 1; by rewrite H.
Qed.

(** C1, as amended: a wrapper runs a delegate script only after the gate
    of [ensurePyodideReady] has let it through, which leaves the runtime
    handle present and [pythonModulesLoaded] true; when the gate throws,
    the wrapper throws the same error and does nothing else; and when the
    handle is present but [pythonModulesLoaded] is false, the wrapper
    throws [Python modules not loaded] at once, leaving the world as it
    was. *)
Theorem delegate_only_behind_gate E c w :
  (invokes_delegate E c w ->
     exists w1, ensurePyodideReady E w = (Returns tt, w1) /\
                is_Some (pyodide w1) /\ pythonModulesLoaded w1 = true) /\
  (forall e w1, ensurePyodideReady E w = (Throws e, w1) ->
     wrapper_body E c w = (Throws e, w1)) /\
  (is_Some (pyodide w) -> pythonModulesLoaded w = false ->
     wrapper_body E c w = (Throws modules_not_loaded, w)).
Proof.
  split; [|split].
  - intros (ev & Hin & Hdel).
    destruct (ensurePyodideReady E w) as [[[]|e] w1] eqn:Hgate.
    + exists w1. split; [done|]. by apply (ensurePyodideReady_returns E w).
    + exfalso. rewrite (wrapper_body_throws E c w e w1 Hgate) in Hin. simpl in Hin.
      destruct (gate_events E w _ w1 Hgate) as (new & Htr & Hnew).
      rewrite (new_events_app _ _ _ Htr) in Hin.
      by apply (quiet_no_delegate _ _ Hnew Hin).
  - apply wrapper_body_throws.
  - intros [h Hpy] Hfl. apply wrapper_body_throws. by eapply ensurePyodideReady_closed.
Qed.

Lemma delegate_only_behind_gate_witness :
  invokes_delegate env_ok WGetSupportedVersions (after_load env_ok) /\
  exists w1, ensurePyodideReady env_ok (after_load env_ok) = (Returns tt, w1) /\
             is_Some (pyodide w1) /\ pythonModulesLoaded w1 = true.
Proof.
  assert (Hinv : invokes_delegate env_ok WGetSupportedVersions (after_load env_ok)).
  { exists (EvJsonDelegate SUPPORTED_SPEC_VERSIONS (Returns "[]")).
    split; [|reflexivity].
    assert (Hnew : new_events (after_load env_ok)
                     (snd (wrapper_body env_ok WGetSupportedVersions (after_load env_ok)))
                   = [EvJsonDelegate SUPPORTED_SPEC_VERSIONS (Returns "[]")])
      by (vm_compute; reflexivity).
    rewrite Hnew. apply list_elem_of_here. }
  split; [exact Hinv|].
  exact (proj1 (delegate_only_behind_gate env_ok WGetSupportedVersions
                  (after_load env_ok)) Hinv).
Defined.

(** C1, as stated, fails: after an initialization that was rejected
    because the patch of the data loader raised, the lifecycle is [Failed],
    yet [getSupportedVersions] runs its delegate script. *)
Lemma delegate_runs_after_failed_initialization :
  reachable env_patch_fails (after_load env_patch_fails) /\
  readiness (after_load env_patch_fails) =
    Failed (Error "ModuleNotFoundError: No module named 'validators'") /\
  (forall h, readiness (after_load env_patch_fails) <> Ready h) /\
  invokes_delegate env_patch_fails WGetSupportedVersions
    (after_load env_patch_fails).
Proof.
  split; [apply reachable_after_load|].
  assert (Hr : readiness (after_load env_patch_fails) =
               Failed (Error "ModuleNotFoundError: No module named 'validators'"))
    by (vm_compute; reflexivity).
  split; [exact Hr|]. split; [intros h; rewrite Hr; discriminate|].
  exists (EvJsonDelegate SUPPORTED_SPEC_VERSIONS (Returns "[]")).
  split; [|reflexivity].
  assert (Hnew : new_events (after_load env_patch_fails)
                   (snd (wrapper_body env_patch_fails WGetSupportedVersions
                           (after_load env_patch_fails)))
                 = [EvJsonDelegate SUPPORTED_SPEC_VERSIONS (Returns "[]")])
    by (vm_compute; reflexivity).
  rewrite Hnew. apply list_elem_of_here.
Qed.

(** ** Initialization more than once *)

(** C2: the first [loadPyodide] is rejected while the module loads, so
    the lifecycle is [Failed].  A later remote call finds no handle and
    initializes again: [loadPyodide] is called a second time, succeeds,
    and the call is served, while the memoized promise stays rejected and
    [getPyodide] keeps answering with the first failure. *)
Lemma initialization_runs_again_after_failure :
  readiness (after_load env_flaky_boot) =
    Failed (Error "NetworkError: failed to fetch pyodide.js") /\
  boots (trace (after_load env_flaky_boot)) = 1 /\
  fst (getSupportedVersions env_flaky_boot (after_load env_flaky_boot)) =
    Returns (JArr []) /\
  boots (trace (snd (getSupportedVersions env_flaky_boot (after_load env_flaky_boot)))) = 2 /\
  pyodide (snd (getSupportedVersions env_flaky_boot (after_load env_flaky_boot))) = Some 1 /\
  pythonModulesLoaded (snd (getSupportedVersions env_flaky_boot (after_load env_flaky_boot)))
    = true /\
  fst (getPyodide env_flaky_boot
         (snd (getSupportedVersions env_flaky_boot (after_load env_flaky_boot)))) =
    Throws (Error "NetworkError: failed to fetch pyodide.js").
Proof.
  repeat split; vm_compute; reflexivity.
Qed.

(** ** When the flag is set *)

(** C3, as amended: between two calls, [pythonModulesLoaded] is true only
    if steps 1 to 3 are on record (boot, support package, and the
    validation package by URL or by index), and every assignment of [true]
    to it comes after them. *)
Theorem modules_loaded_only_after_install E w :
  reachable E w ->
  (pythonModulesLoaded w = true -> installed (trace w)) /\
  (forall pre post, trace w = pre ++ EvModulesLoaded :: post -> installed pre).
Proof.
  intros Hr. destruct (reachable_well_formed E w Hr) as (_ & H2 & H3).
  split; [|exact H3].
  intros Hfl. apply H2, list_elem_of_split in Hfl as (pre & post & Heq).
  rewrite Heq. apply installed_app. by apply (H3 pre post).
Qed.

Lemma modules_loaded_only_after_install_witness :
  reachable env_wheel (after_load env_wheel) /\
  pythonModulesLoaded (after_load env_wheel) = true /\
  installed (trace (after_load env_wheel)).
Proof.
  assert (Hr : reachable env_wheel (after_load env_wheel))
    by apply reachable_after_load.
  split; [exact Hr|]. split; [reflexivity|].
  apply (proj1 (modules_loaded_only_after_install env_wheel _ Hr)). reflexivity.
Defined.

(** C3, as stated, fails: with a package URL configured and the wheel
    installed, the flag is true and the lifecycle [Ready] although nothing
    was provisioned and the data loader was not patched. *)
Lemma modules_loaded_without_provisioning :
  pythonModulesLoaded (after_load env_wheel) = true /\
  readiness (after_load env_wheel) = Ready 1 /\
  FS (after_load env_wheel) = ∅ /\
  forallb (fun e => negb (is_data_step e)) (trace (after_load env_wheel)) = true.
Proof.
  repeat split; vm_compute; reflexivity.
Qed.

(** ** Package installation *)

Lemma provisioning_no_attempts evs :
  forallb is_provisioning evs = true -> install_attempts evs = [].
Proof.
  induction evs as [|e evs IH]; [done|]. simpl.
  intros [He Hevs]%andb_prop. unfold install_attempts in *. simpl.
  rewrite (IH Hevs). by destruct e.
Qed.

Ltac attempts_now :=
  unfold install_attempts; simpl;
  rewrite ?omap_app; simpl;
  repeat match goal with
         | H : forallb is_provisioning ?evs = true |- context [omap install_attempt ?evs] =>
             change (omap install_attempt evs) with (install_attempts evs);
             rewrite (provisioning_no_attempts evs H)
         end;
  simpl.

Ltac some_succeeded Hall :=
  exfalso; cut (true = false); [discriminate|];
  first [ apply (Hall (InstallIndex, true)); set_solver
        | match goal with
          | url : string |- _ => apply (Hall (InstallWheel url, true)); set_solver
          end ].

(** Membership of a given event in the events of an initialization. *)
Ltac invert_init Hin :=
  repeat (apply elem_of_cons in Hin as [Hin|Hin];
          [first [discriminate Hin | injection Hin as ?; subst]|]);
  try (apply elem_of_app in Hin as [Hin|Hin];
       [ exfalso;
         match goal with
         | Hevs : forallb is_provisioning _ = true |- _ =>
             rewrite forallb_forall in Hevs;
             apply list_elem_of_In, Hevs in Hin; discriminate Hin
         end | ]);
  repeat (apply elem_of_cons in Hin as [Hin|Hin];
          [first [discriminate Hin | injection Hin as ?; subst]|]);
  try (by apply elem_of_nil in Hin).

(** C4, as amended: initialization installs the validation package by
    at most two strategies, the configured URL first (when there is one)
    and the package index second, the index being tried only when the URL
    was not configured or failed.  When the attempt on the index fails,
    and so whenever every strategy that was tried failed, initialization
    throws the fixed package-unavailable error, the installers' own errors
    being logged as warnings only, and leaves [pythonModulesLoaded] as it
    was.  Initialization returns a handle only if one strategy succeeded,
    with [pythonModulesLoaded] true.  And the attempts are really made:
    once the support package is installed an attempt follows, and when
    the boot and the support package succeed and the installers answer
    [rw] and [ri], the attempts on record are the wheel alone if it
    installs, the wheel and then the index if it does not, and the index
    alone when no URL is configured. *)
Theorem package_installation_strategies E w :
  pyodide w = None ->
  exists new,
    trace (snd (initializePyodide E w)) = trace w ++ new /\
    (install_attempts new = [] \/
     match packageUrl E with
     | Some url =>
         install_attempts new = [(InstallWheel url, true)] \/
         exists b, install_attempts new = [(InstallWheel url, false); (InstallIndex, b)]
     | None => exists b, install_attempts new = [(InstallIndex, b)]
     end) /\
    (install_attempts new <> [] ->
     (forall a, a ∈ install_attempts new -> a.2 = false) ->
     fst (initializePyodide E w) = Throws package_unavailable /\
     pythonModulesLoaded (snd (initializePyodide E w)) = pythonModulesLoaded w) /\
    (forall h, fst (initializePyodide E w) = Returns h ->
     (exists s, (s, true) ∈ install_attempts new) /\
     pythonModulesLoaded (snd (initializePyodide E w)) = true /\
     pyodide (snd (initializePyodide E w)) = Some h) /\
    (forall e, EvSetup InstallIndex (Throws e) ∈ new ->
     fst (initializePyodide E w) = Throws package_unavailable /\
     EvConsole LWarn "Could not install from PyPI, trying to load Python files directly:"
       (Some e) ∈ new) /\
    (forall url e, EvSetup (InstallWheel url) (Throws e) ∈ new ->
     EvConsole LWarn "Failed to load from wheel, trying bundled modules:" (Some e) ∈ new) /\
    (EvSetup InstallHttpShim (Returns tt) ∈ new -> install_attempts new <> []) /\
    (forall h rw ri,
     (forall tr, loadPyodide E tr = Returns h) ->
     (forall tr, runSetup E tr InstallHttpShim = Returns tt) ->
     (forall tr url, runSetup E tr (InstallWheel url) = rw) ->
     (forall tr, runSetup E tr InstallIndex = ri) ->
     install_attempts new =
       match packageUrl E with
       | Some url =>
           if succeeded rw then [(InstallWheel url, true)]
           else [(InstallWheel url, false); (InstallIndex, succeeded ri)]
       | None => [(InstallIndex, succeeded ri)]
       end).
Proof.
  intros Hnone. init_cases E w.
  all: flat_trace; eexists; (split; [reflexivity|]); attempts_now.
  all: split;
    [ first [ by left
            | right; first [ by left | by right; eexists | by eexists ] ] | ].
  all: split;
    [ intros Hne Hall;
      first [ done
            | exfalso; by apply Hne
            | some_succeeded Hall ] | ].
  all: split;
    [ intros h' Heq; first [ discriminate Heq | injection Heq as <- ];
      (split; [eexists; solve [eauto 5 using list_elem_of_here, list_elem_of_further]
              | by rewrite ?Hpy]) | ].
  all: split; [|split; [|split]].
  all: try (intros h' rw ri Hb Hs Hw Hi;
            try (rewrite Hb in Hboot; discriminate Hboot);
            try (rewrite Hs in Hshim; discriminate Hshim);
            try (rewrite Hw in Hwheel; subst rw);
            try (rewrite Hi in Hindex; subst ri);
            reflexivity).
  all: try (intros Hin Hno; first [discriminate Hno | invert_init Hin]; fail).
  all: try (intros e' Hin; invert_init Hin; (split; [reflexivity|in_list])).
  all: intros url' e' Hin; invert_init Hin; in_list.
Qed.

Lemma package_installation_strategies_witness :
  pyodide initial = None /\
  install_attempts (trace (snd (initializePyodide env_both_fail initial))) =
    [(InstallWheel "https://example.org/dmv_tool-1.0-py3-none-any.whl", false);
     (InstallIndex, false)] /\
  fst (initializePyodide env_both_fail initial) = Throws package_unavailable /\
  pythonModulesLoaded (snd (initializePyodide env_both_fail initial)) = false.
Proof.
  split; [reflexivity|].
  destruct (package_installation_strategies env_both_fail initial eq_refl)
    as (new & Htr & _ & Hfail & _ & _ & _ & _ & Hmade).
  assert (Hnew : new = trace (snd (initializePyodide env_both_fail initial)))
    by (symmetry; exact Htr).
  subst new. clear Htr.
  pose proof (Hmade 1 (Throws (Error "ValueError: Can't fetch wheel"))
                (Throws (Error "ValueError: Can't find a pure Python 3 wheel for 'esp-matter-dm-validator'"))
                (fun tr => eq_refl) (fun tr => eq_refl) (fun tr url => eq_refl)
                (fun tr => eq_refl)) as Hat.
  change (install_attempts (trace (snd (initializePyodide env_both_fail initial)))
          = [(InstallWheel "https://example.org/dmv_tool-1.0-py3-none-any.whl", false);
             (InstallIndex, false)]) in Hat.
  split; [exact Hat|].
  rewrite Hat in Hfail. apply Hfail; [discriminate|].
  intros a Ha. repeat (apply elem_of_cons in Ha as [->|Ha]; [reflexivity|]).
  by apply elem_of_nil in Ha.
Defined.

(** C4, as stated, fails: when both installers raise, initialization
    throws neither of their errors but the fixed error of line 77, and
    that is what the callers of [getPyodide] are rejected with. *)
Lemma installer_errors_are_not_rethrown :
  packageUrl env_both_fail = Some "https://example.org/dmv_tool-1.0-py3-none-any.whl" /\
  install_attempts (trace (snd (initializePyodide env_both_fail initial))) =
    [(InstallWheel "https://example.org/dmv_tool-1.0-py3-none-any.whl", false);
     (InstallIndex, false)] /\
  runSetup env_both_fail [] (InstallWheel "https://example.org/dmv_tool-1.0-py3-none-any.whl")
    = Throws (Error "ValueError: Can't fetch wheel") /\
  runSetup env_both_fail [] InstallIndex =
    Throws (Error "ValueError: Can't find a pure Python 3 wheel for 'esp-matter-dm-validator'") /\
  fst (initializePyodide env_both_fail initial) = Throws package_unavailable /\
  fst (getPyodide env_both_fail initial) = Throws package_unavailable /\
  package_unavailable <> Error "ValueError: Can't fetch wheel" /\
  package_unavailable <>
    Error "ValueError: Can't find a pure Python 3 wheel for 'esp-matter-dm-validator'".
Proof.
  repeat split; try (vm_compute; reflexivity); discriminate.
Qed.

(** ** Provisioning of validation data *)

Lemma data_paths_distinct : NoDup (data_path <$> validationDataVersions).
Proof. apply (bool_decide_unpack _). vm_compute. reflexivity. Qed.

Lemma provisioning_warning_is_no_wheel_warning v e e' :
  provisioning_warning v e <>
  EvConsole LWarn "Failed to load from wheel, trying bundled modules:" e'.
Proof. unfold provisioning_warning. intros [=]. Qed.

Lemma silent_no_warning evs v e :
  forallb (fun ev => negb (is_console ev)) evs = true ->
  provisioning_warning v e ∉ evs.
Proof.
  intros Hevs Hin. rewrite forallb_forall in Hevs.
  apply list_elem_of_In, Hevs in Hin. discriminate Hin.
Qed.

Section OneFetchFails.

Variable E : Env.
Variable data : string -> string.
Variable failed : string.

(** What the request for the version [failed] is answered with: a
    rejection, a response that is not [ok], or an [ok] response whose text
    cannot be read. *)
Variable failure : Outcome Response.

Hypothesis fetch_fails : forall tr, fetch E tr (data_url failed) = failure.
Hypothesis failure_delivers_nothing : delivers failure = false.
Hypothesis fetch_works :
  forall tr v, v ∈ validationDataVersions -> v <> failed ->
    fetch E tr (data_url v) = Returns (mkResponse true (Returns (data v))).
Hypothesis write_works : forall tr path d, FS_writeFile E tr path d = Returns tt.

Lemma loadValidationData_failed w :
  FS (snd (loadValidationData E failed w)) = FS w /\
  exists evs,
    trace (snd (loadValidationData E failed w)) = trace w ++ evs /\
    match logged_error failure with
    | Some e => provisioning_warning failed e ∈ evs
    | None => forallb (fun ev => negb (is_console ev)) evs = true
    end.
Proof using fetch_fails failure_delivers_nothing.
  unfold loadValidationData. run_m. rewrite fetch_fails.
  destruct failure as [[[] [d|e]]|e]; simpl in *; try discriminate.
  - split; [done|]. eexists. split; [by rewrite <- app_assoc|]. unfold provisioning_warning. in_list.
  - split; [done|]. by eexists.
  - split; [done|]. by eexists.
  - split; [done|]. eexists. split; [by rewrite <- app_assoc|]. unfold provisioning_warning. in_list.
Qed.

Lemma loadValidationData_fetched v w :
  v ∈ validationDataVersions -> v <> failed ->
  FS (snd (loadValidationData E v w)) = <[data_path v := data v]> (FS w) /\
  exists evs,
    trace (snd (loadValidationData E v w)) = trace w ++ evs /\
    forallb (fun ev => negb (is_console ev)) evs = true.
Proof using fetch_works write_works.
  intros Hv Hne. unfold loadValidationData. run_m.
  rewrite (fetch_works _ v Hv Hne). simpl. rewrite write_works. simpl.
  split; [done|]. eexists. split; [by rewrite <- app_assoc|done].
Qed.

(** The loop, having handled the versions [handled], handles [vs]. *)
Lemma provisioning_skips_failed vs : forall handled w,
  NoDup (data_path <$> (handled ++ vs)) ->
  Forall (fun v => v ∈ validationDataVersions) vs ->
  FS w = list_to_map (document data <$> filter (fun v => v <> failed) handled) ->
  FS (snd (for_of vs (loadValidationData E) w)) =
    list_to_map (document data <$> filter (fun v => v <> failed) (handled ++ vs)) /\
  exists evs,
    trace (snd (for_of vs (loadValidationData E) w)) = trace w ++ evs /\
    match logged_error failure with
    | Some e => failed ∈ vs -> provisioning_warning failed e ∈ evs
    | None => forallb (fun ev => negb (is_console ev)) evs = true
    end.
Proof using fetch_fails failure_delivers_nothing fetch_works write_works.
  induction vs as [|v vs IH]; intros handled w Hdup Hvs HFS.
  - rewrite app_nil_r. split; [done|]. exists []. split; [by rewrite app_nil_r|].
    destruct (logged_error failure); [|done]. intros H. by apply elem_of_nil in H.
  - rewrite for_of_cons. unfold bind.
    destruct (loadValidationData_frame E v w) as [Hret _].
    destruct (loadValidationData E v w) as [r w1] eqn:Hstep. simpl in Hret. subst r.
    apply Forall_cons in Hvs as [Hv Hvs].
    replace (handled ++ v :: vs) with ((handled ++ [v]) ++ vs) in *
      by (by rewrite <- app_assoc).
    assert (Hw1 : FS w1 = list_to_map (document data <$> filter (fun v => v <> failed) (handled ++ [v])) /\
                  exists evs1, trace w1 = trace w ++ evs1 /\
                    match logged_error failure with
                    | Some e => failed = v -> provisioning_warning failed e ∈ evs1
                    | None => forallb (fun ev => negb (is_console ev)) evs1 = true
                    end).
    { destruct (decide (v = failed)) as [->|Hne].
      - destruct (loadValidationData_failed w) as (HFS1 & evs1 & Htr1 & Hlog).
        rewrite Hstep in HFS1, Htr1. simpl in HFS1, Htr1.
        split.
        + rewrite filter_app, filter_cons_False, filter_nil, app_nil_r by (intros H; by apply H).
          congruence.
        + exists evs1. split; [done|]. by destruct (logged_error failure).
      - destruct (loadValidationData_fetched v w Hv Hne) as (HFS1 & evs1 & Htr1 & Hsilent).
        rewrite Hstep in HFS1, Htr1. simpl in HFS1, Htr1. split.
        + rewrite filter_app, filter_cons_True, filter_nil, fmap_app by done. simpl.
          unfold document at 2. rewrite list_to_map_snoc; [congruence|].
          rewrite !fmap_app in Hdup.
          apply NoDup_app in Hdup as [Hdup _].
          apply NoDup_app in Hdup as (_ & Hdup & _).
          intros Hin. apply (Hdup (data_path v)); [|simpl; apply list_elem_of_here].
          rewrite <- list_fmap_compose in Hin.
          apply list_elem_of_fmap in Hin as (v' & Heq & Hin). simpl in Heq.
          apply list_elem_of_filter in Hin as [_ Hin].
          rewrite Heq. apply list_elem_of_fmap. by exists v'.
        + exists evs1. split; [done|].
          destruct (logged_error failure); [|done]. intros Heq. by destruct Hne. }
    destruct Hw1 as (HFS1 & evs1 & Htr1 & Hlog1).
    destruct (IH (handled ++ [v]) w1 Hdup Hvs HFS1) as (HFS' & evs2 & Htr2 & Hlog2).
    split; [done|]. exists (evs1 ++ evs2). split; [by rewrite Htr2, Htr1, app_assoc|].
    destruct (logged_error failure) as [e|].
    + intros [H|H]%elem_of_cons; apply elem_of_app; [left; auto | right; auto].
    + by rewrite forallb_app, Hlog1, Hlog2.
Qed.

Variable h : Handle.

Hypothesis failed_listed : failed ∈ validationDataVersions.
Hypothesis boot_works : forall tr, loadPyodide E tr = Returns h.
Hypothesis setup_works :
  forall tr s, s ∈ [InstallHttpShim; InstallIndex; MakeDataDir; PatchLoader] ->
    runSetup E tr s = Returns tt.

(** Provisioning is reached: no package URL is configured, or the wheel
    of the configured URL does not install. *)
Hypothesis wheel_fails :
  forall tr url, packageUrl E = Some url ->
    succeeded (runSetup E tr (InstallWheel url)) = false.

Lemma initializePyodide_skips_failed_fetch :
  fst (initializePyodide E initial) = Returns h /\
  initializationPromise (snd (initializePyodide E initial)) = None /\
  pythonModulesLoaded (snd (initializePyodide E initial)) = true /\
  FS (snd (initializePyodide E initial)) =
    provisioned data (filter (fun v => v <> failed) validationDataVersions) /\
  match logged_error failure with
  | Some e => provisioning_warning failed e ∈ trace (snd (initializePyodide E initial))
  | None => forall v e, provisioning_warning v e ∉ trace (snd (initializePyodide E initial))
  end.
Proof using All.
  init_cases E initial.
  all: try (rewrite boot_works in Hboot; discriminate Hboot).
  all: try (rewrite setup_works in Hshim by in_list; discriminate Hshim).
  all: try (rewrite setup_works in Hindex by in_list; discriminate Hindex).
  all: try (rewrite setup_works in Hmkdir by in_list; discriminate Hmkdir).
  all: try (rewrite setup_works in Hpatch by in_list; discriminate Hpatch).
  all: try (match type of Hwheel with
            | runSetup E ?tr (InstallWheel ?u) = _ =>
                pose proof (wheel_fails tr u eq_refl) as Hw; rewrite Hwheel in Hw;
                discriminate Hw
            end).
  all: rewrite boot_works in Hboot; injection Hboot as <-.
  all: match type of Hrun with
       | for_of _ _ ?W = _ =>
           destruct (provisioning_skips_failed validationDataVersions [] W
                       data_paths_distinct) as (HFS & evs' & Htr' & Hlog);
             [ apply Forall_forall; auto | done | ]
       end.
  all: rewrite Hrun in HFS, Htr'; simpl in HFS, Htr'.
  all: split; [done|]. all: split; [done|]. all: split; [done|]. all: split; [exact HFS|].
  all: simpl; rewrite Htr'; rewrite <- ?app_assoc; simpl.
  all: destruct (logged_error failure) as [err|].
  all: try (specialize (Hlog failed_listed);
            repeat apply list_elem_of_further; apply elem_of_app; left; exact Hlog).
  all: intros v err Hin.
  all: repeat (apply elem_of_cons in Hin as [Hin|Hin];
               [first [discriminate Hin
                      | by apply provisioning_warning_is_no_wheel_warning in Hin]|]).
  all: apply elem_of_app in Hin as [Hin|Hin]; [by apply (silent_no_warning _ _ _ Hlog) in Hin|].
  all: repeat (apply elem_of_cons in Hin as [Hin|Hin]; [discriminate Hin|]).
  all: by apply elem_of_nil in Hin.
Qed.

(** C5, as amended: a version whose document cannot be fetched is
    skipped, and the failure is not fatal.  When provisioning is reached,
    boot, scripts and writes succeed, the request for one version [failed]
    of the fixed set delivers nothing, and every other version is fetched
    and written, then initialization returns the handle and the lifecycle
    is [Ready]; the filesystem holds exactly the documents of the other
    versions; when [fetch] (or the reading of the text) was rejected with
    [e], the failure was logged as a warning for [failed]; and when the
    response was not [ok], no warning about provisioning was logged at
    all. *)
Theorem failed_fetch_is_skipped :
  fst (getPyodide E initial) = Returns h /\
  readiness (snd (getPyodide E initial)) = Ready h /\
  pythonModulesLoaded (snd (getPyodide E initial)) = true /\
  FS (snd (getPyodide E initial)) =
    provisioned data (filter (fun v => v <> failed) validationDataVersions) /\
  match logged_error failure with
  | Some e => provisioning_warning failed e ∈ trace (snd (getPyodide E initial))
  | None => forall v e, provisioning_warning v e ∉ trace (snd (getPyodide E initial))
  end.
Proof using All.
  destruct initializePyodide_skips_failed_fetch as (Hret & Hpr & Hfl & HFS & Hwarn).
  unfold getPyodide. change (initializationPromise initial) with (@None (Outcome Handle)).
  cbv iota. destruct (initializePyodide E initial) as [r w']. simpl in *. subst r.
  done.
Qed.

End OneFetchFails.

Lemma failed_fetch_is_skipped_witness :
  "1.4.1" ∈ validationDataVersions /\
  fst (getPyodide env_fetch_141_fails initial) = Returns 1 /\
  readiness (snd (getPyodide env_fetch_141_fails initial)) = Ready 1 /\
  pythonModulesLoaded (snd (getPyodide env_fetch_141_fails initial)) = true /\
  FS (snd (getPyodide env_fetch_141_fails initial)) =
    provisioned sample_document ["1.2"; "1.3"; "1.4"; "1.4.2"; "1.5"; "master"] /\
  provisioning_warning "1.4.1" (Error "TypeError: Failed to fetch")
    ∈ trace (snd (getPyodide env_fetch_141_fails initial)).
Proof.
  split; [in_list|].
  apply (failed_fetch_is_skipped env_fetch_141_fails sample_document "1.4.1"
           (Throws (Error "TypeError: Failed to fetch"))).
  - intros tr. reflexivity.
  - reflexivity.
  - intros tr v Hv Hne. unfold validationDataVersions in Hv.
    repeat (apply elem_of_cons in Hv as [->|Hv]; [first [reflexivity | by destruct Hne]|]).
    by apply elem_of_nil in Hv.
  - intros tr path d. reflexivity.
  - in_list.
  - intros tr. reflexivity.
  - intros tr s Hs. reflexivity.
  - intros tr url Hurl. discriminate Hurl.
Defined.

(** C5, as stated, fails: when the document of version 1.4.1 is not on
    the server, so that [fetch] is fulfilled with a response that is not
    [ok], the version is skipped and initialization reaches [Ready], but
    nothing is logged for it: the console shows the five messages of a run
    without failure. *)
Lemma unaccepted_response_is_skipped_silently :
  fetch env_fetch_141_not_found [] (data_url "1.4.1") =
    Returns (mkResponse false (Returns "404 Not Found")) /\
  fst (getPyodide env_fetch_141_not_found initial) = Returns 1 /\
  readiness (snd (getPyodide env_fetch_141_not_found initial)) = Ready 1 /\
  FS (snd (getPyodide env_fetch_141_not_found initial)) =
    provisioned sample_document ["1.2"; "1.3"; "1.4"; "1.4.2"; "1.5"; "master"] /\
  console_output (trace (snd (getPyodide env_fetch_141_not_found initial))) =
    [EvConsole LLog "Loading Pyodide..." None;
     EvConsole LLog "Pyodide loaded, installing packages..." None;
     EvConsole LLog "Loading dmv_tool package..." None;
     EvConsole LLog "Python modules installed from PyPI" None;
     EvConsole LLog "Bundled modules and data loaded" None].
Proof.
  repeat split; vm_compute; reflexivity.
Qed.

(** ** Escaping and the Python literal *)

Lemma replace_pair_cons_other c d rep a s :
  a <> c -> replace_pair c d rep (String a s) = String a (replace_pair c d rep s).
Proof.
  intros Hne. simpl. destruct s as [|b s]; [done|].
  by destruct (Ascii.eqb_spec a c).
Qed.

Lemma replace_pair_cons_alone c d rep s :
  match s with String b _ => b <> d | EmptyString => True end ->
  replace_pair c d rep (String c s) = String c (replace_pair c d rep s).
Proof.
  intros Hne. simpl. destruct s as [|b s]; [done|].
  destruct (Ascii.eqb_spec b d); [done|]. by rewrite andb_false_r.
Qed.

Lemma replace_pair_cons_pair c d rep s :
  replace_pair c d rep (String c (String d s)) = rep +:+ replace_pair c d rep s.
Proof.
  change (replace_pair c d rep (String c (String d s)))
    with (if Ascii.eqb c c && Ascii.eqb d d
          then rep +:+ replace_pair c d rep s
          else String c (replace_pair c d rep (String d s))).
  by rewrite !Ascii.eqb_refl.
Qed.

Lemma doubled_backslash s :
  doubled (String backslash s) = String backslash (String backslash (doubled s)).
Proof. reflexivity. Qed.

Lemma doubled_backtick s :
  doubled (String backtick s) = String backslash (String backtick (doubled s)).
Proof. reflexivity. Qed.

Lemma doubled_other c s :
  c <> backslash -> c <> backtick -> doubled (String c s) = String c (doubled s).
Proof.
  intros H1 H2. unfold doubled. simpl.
  destruct (Ascii.eqb_spec c backslash); [done|]. simpl.
  by destruct (Ascii.eqb_spec c backtick).
Qed.

Lemma replace_backtick_other c s :
  c <> backtick ->
  replace_char backtick (str2 backslash backtick) (String c s) =
  String c (replace_char backtick (str2 backslash backtick) s).
Proof. intros H. simpl. by destruct (Ascii.eqb_spec c backtick). Qed.

(** Neither replacement puts a brace in front. *)
Lemma doubled_head s :
  match s with String b _ => b <> lbrace | EmptyString => True end ->
  match doubled s with String b _ => b <> lbrace | EmptyString => True end.
Proof.
  destruct s as [|b s]; [done|]. intros Hb.
  destruct (Ascii.eqb_spec b backslash) as [->|H1]; [by rewrite doubled_backslash|].
  destruct (Ascii.eqb_spec b backtick) as [->|H2]; [by rewrite doubled_backtick|].
  by rewrite doubled_other.
Qed.

Lemma backticked_head s :
  match s with String b _ => b <> lbrace | EmptyString => True end ->
  match replace_char backtick (str2 backslash backtick) s with
  | String b _ => b <> lbrace
  | EmptyString => True
  end.
Proof.
  destruct s as [|b s]; [done|]. intros Hb.
  destruct (Ascii.eqb_spec b backtick) as [->|H2]; [done|].
  by rewrite replace_backtick_other.
Qed.

Lemma lex_plain c src :
  c <> backslash -> c <> dquote -> unmodelled_char c = false ->
  py_lex_triple (String c src) = prepend c (py_lex_triple src).
Proof.
  intros H1 H2 H3. simpl.
  destruct (Ascii.eqb_spec c backslash); [done|].
  destruct (Ascii.eqb_spec c dquote); [done|]. by rewrite H3.
Qed.

Lemma append_cons c (s t : string) : String c s +:+ t = String c (s +:+ t).
Proof. reflexivity. Qed.

(** Python undoes the doubling of backslashes and nothing else. *)
Lemma lex_escaped n : forall s,
  String.length s <= n -> single_line_unquoted s = true ->
  py_lex_triple (replace_pair dollar lbrace (String backslash (str2 dollar lbrace)) (doubled s)
                 +:+ triple_quote) =
  Some (backslashed s, EmptyString).
Proof.
  induction n as [|n IH]; intros s Hlen Hs.
  { destruct s; [reflexivity|simpl in Hlen; lia]. }
  destruct s as [|c s]; [reflexivity|].
  simpl in Hlen. simpl in Hs.
  apply andb_prop in Hs as [[Hq Hu]%andb_prop Hs].
  apply negb_true_iff in Hu. apply negb_true_iff in Hq.
  destruct (Ascii.eqb_spec c dquote) as [|Hq']; [done|]. clear Hq.
  unfold backslashed.
  destruct (Ascii.eqb_spec c backslash) as [->|Hbs].
  { rewrite doubled_backslash, !replace_pair_cons_other by done.
    rewrite replace_backtick_other, replace_pair_cons_other by done.
    rewrite !append_cons.
    change (py_lex_triple (String backslash (String backslash ?x)))
      with (prepend backslash (py_lex_triple x)).
    rewrite IH by (done || lia). done. }
  destruct (Ascii.eqb_spec c backtick) as [->|Hbt].
  { rewrite doubled_backtick, !replace_pair_cons_other by done.
    change (replace_char backtick (str2 backslash backtick) (String backtick s))
      with (String backslash (String backtick
              (replace_char backtick (str2 backslash backtick) s))).
    rewrite !replace_pair_cons_other by done.
    rewrite !append_cons.
    change (py_lex_triple (String backslash (String backtick ?x)))
      with (prepend backslash (prepend backtick (py_lex_triple x))).
    rewrite IH by (done || lia). done. }
  rewrite doubled_other, replace_backtick_other by done.
  destruct (Ascii.eqb_spec c dollar) as [->|Hd].
  - destruct s as [|b s].
    + reflexivity.
    + destruct (Ascii.eqb_spec b lbrace) as [->|Hb].
      * rewrite doubled_other by done.
        rewrite replace_backtick_other by done.
        rewrite !replace_pair_cons_pair.
        simpl in Hs.
        change (String backslash (str2 dollar lbrace) +:+ ?x)
          with (String backslash (String dollar (String lbrace x))).
        rewrite !append_cons.
        change (py_lex_triple (String backslash (String dollar (String lbrace ?x))))
          with (prepend backslash (prepend dollar (prepend lbrace (py_lex_triple x)))).
        simpl in Hlen. rewrite IH by (done || lia). done.
      * rewrite (replace_pair_cons_alone dollar lbrace _ (doubled (String b s)))
          by (by apply doubled_head).
        rewrite (replace_pair_cons_alone dollar lbrace _
                   (replace_char backtick (str2 backslash backtick) (String b s)))
          by (by apply backticked_head).
        rewrite append_cons, lex_plain by done.
        rewrite IH by (done || lia). done.
  - rewrite !replace_pair_cons_other by done.
    rewrite append_cons, lex_plain by done.
    rewrite IH by (done || lia). done.
Qed.

(** On one-line texts without double quotes, the value bound to
    [log_data_str] is the text with a backslash before every backtick and
    every dollar-brace pair. *)
Lemma escaped_literal_value s :
  single_line_unquoted s = true ->
  py_triple_quoted (escapeLogData s) = Some (backslashed s).
Proof.
  intros Hs. unfold py_triple_quoted, escapeLogData.
  change (replace_char backtick (str2 backslash backtick)
            (replace_char backslash (str2 backslash backslash) s)) with (doubled s).
  by rewrite (lex_escaped (String.length s) s).
Qed.

(** What [parseDatamodelLogs] hands to the delegate. *)
Lemma delegate_receives_backslashed E w logData :
  reachable E w -> pythonModulesLoaded w = true ->
  single_line_unquoted logData = true ->
  exists r,
    EvJsonDelegate (parse_datamodel_logs (Some (PyStr (backslashed logData)))) r
      ∈ new_events w (snd (parseDatamodelLogs E logData w)).
Proof.
  intros Hr Hfl Hs. pose proof (reachable_gate_open E w Hr Hfl) as Hgate.
  unfold parseDatamodelLogs, run_log_literal.
  rewrite (bind_gate_open E _ w w Hgate), (escaped_literal_value logData Hs).
  run_m. rewrite lookup_insert_eq.
  body_cases E; new_events_now; eexists; in_list.
Qed.

(** C6: for the log text that consists of one backtick, the escaping
    puts a backslash before it, Python keeps both characters, and the
    delegate is handed two characters instead of one. *)
Lemma backtick_reaches_delegate_escaped :
  escapeLogData (str1 backtick) = str2 backslash backtick /\
  py_triple_quoted (escapeLogData (str1 backtick)) = Some (str2 backslash backtick) /\
  new_events (after_load env_ok)
    (snd (parseDatamodelLogs env_ok (str1 backtick) (after_load env_ok))) =
    [EvLogLiteral (str2 backslash backtick) (Returns (Some (PyStr (str2 backslash backtick))));
     EvGlobalsSet "log_data_str" (PyStr (str2 backslash backtick));
     EvJsonDelegate (parse_datamodel_logs (Some (PyStr (str2 backslash backtick))))
       (Returns "[]")] /\
  str2 backslash backtick <> str1 backtick.
Proof.
  repeat split; try (vm_compute; reflexivity). discriminate.
Qed.

(** ** The remote call wrappers behind the gate *)

Lemma append_empty_r (s : string) : s +:+ EmptyString = s.
Proof.
  induction s as [|c s IH]; [done|].
  change (String c (s +:+ EmptyString) = String c s). by rewrite IH.
Qed.

Lemma contains_suffix (pre s : string) : contains (pre +:+ s) s.
Proof. exists pre, EmptyString. by rewrite append_empty_r. Qed.

Lemma to_js_not_null v : to_js v <> JNull.
Proof. by destruct v. Qed.

Lemma getSupportedVersions_closed E w h :
  pyodide w = Some h -> pythonModulesLoaded w = false ->
  getSupportedVersions E w = (Throws modules_not_loaded, w).
Proof.
  intros Hpy Hfl.
  exact (wrapper_body_throws E WGetSupportedVersions w _ _
           (ensurePyodideReady_closed E w h Hpy Hfl)).
Qed.

Section BehindTheGate.

(** The readiness check lets the call through, leaving the world [w1].
    Between two calls this is the case as soon as [pythonModulesLoaded] is
    true, with [w1 = w] (lemma [reachable_gate_open]). *)
Variable E : Env.
Variables w w1 : World.
Hypothesis gate_open : ensurePyodideReady E w = (Returns tt, w1).

(** C7, as amended: once the readiness check has let the call through,
    [getSupportedVersions] never throws; when the delegate script raises,
    and when its result is not JSON, it returns exactly the fallback
    list. *)
Theorem getSupportedVersions_degrades :
  (exists v, fst (getSupportedVersions E w) = Returns v) /\
  (forall e,
     EvJsonDelegate SUPPORTED_SPEC_VERSIONS (Throws e)
       ∈ new_events w (snd (getSupportedVersions E w)) ->
     fst (getSupportedVersions E w) = Returns fallback_versions) /\
  (forall s e,
     EvJsonDelegate SUPPORTED_SPEC_VERSIONS (Returns s)
       ∈ new_events w (snd (getSupportedVersions E w)) ->
     JSON_parse E s = Throws e ->
     fst (getSupportedVersions E w) = Returns fallback_versions).
Proof using All.
  destruct (gate_events E w _ w1 gate_open) as (evs & Htr & Hevs).
  unfold getSupportedVersions. rewrite (bind_gate_open E _ w w1 gate_open).
  body_cases E; call_events Htr.
  all: split; [by eexists|].
  all: split; [intros e' Hin | intros s' e' Hin Hbad]; invert_call Hin Hevs; try done.
  all: congruence.
Qed.

(** C8: once the modules are loaded, so that the readiness check lets the
    call through, [detectSpecVersion] never throws; when marshaling
    ([JSON.stringify]) or the delegate script raises, it returns [null]. *)
Theorem detectSpecVersion_soft_failure parsedData :
  (exists v, fst (detectSpecVersion E parsedData w) = Returns v) /\
  (forall e, JSON_stringify E parsedData = Throws e ->
     fst (detectSpecVersion E parsedData w) = Returns JNull) /\
  (forall arg e,
     EvDetect arg (Throws e) ∈ new_events w (snd (detectSpecVersion E parsedData w)) ->
     fst (detectSpecVersion E parsedData w) = Returns JNull).
Proof using All.
  destruct (gate_events E w _ w1 gate_open) as (evs & Htr & Hevs).
  unfold detectSpecVersion. rewrite (bind_gate_open E _ w w1 gate_open).
  body_cases E; call_events Htr.
  all: split; [by eexists|].
  all: split; [intros e' Hbad | intros arg' e' Hin; invert_call Hin Hevs]; done.
Qed.

(** C10: once the readiness check has let the call through, when the
    delegate returns a falsy value [detectSpecVersion] returns the string
    [master], and when it returns a truthy value the wrapper returns that
    value; [null] is returned exactly when marshaling or the delegate
    script raised. *)
Theorem detectSpecVersion_defaults_to_master parsedData :
  (forall arg version,
     EvDetect arg (Returns version)
       ∈ new_events w (snd (detectSpecVersion E parsedData w)) ->
     fst (detectSpecVersion E parsedData w) =
       Returns (if py_truthy version then to_js version else JStr "master")) /\
  (fst (detectSpecVersion E parsedData w) = Returns JNull <->
   (exists e, JSON_stringify E parsedData = Throws e) \/
   (exists arg e,
      EvDetect arg (Throws e) ∈ new_events w (snd (detectSpecVersion E parsedData w)))).
Proof using All.
  destruct (gate_events E w _ w1 gate_open) as (evs & Htr & Hevs).
  unfold detectSpecVersion. rewrite (bind_gate_open E _ w w1 gate_open).
  body_cases E; call_events Htr.
  all: split;
    [ intros arg' version' Hin; invert_call Hin Hevs; try done; by destruct (py_truthy _) | ].
  all: split;
    [ intros Hnull
    | intros [[e' Hbad]|(arg' & e' & Hin)]; [try done | invert_call Hin Hevs; done] ].
  all: try (right; do 2 eexists; apply elem_of_app; right;
            apply list_elem_of_further, list_elem_of_here).
  all: try (left; by eexists).
  all: exfalso; injection Hnull as Hnull; destruct (py_truthy _);
    [by apply to_js_not_null in Hnull | discriminate Hnull].
Qed.

End BehindTheGate.

(** C9: whenever the delegate script of [parseDatamodelLogs] or of
    [validateDeviceConformance] raises during a call, the wrapper throws
    an error whose message is its own prefix followed by the message of
    the delegate's error.  And the delegate is really run: once the
    readiness check has let the call through and the arguments have been
    handed over (the script of the log literal does not raise,
    [JSON.stringify] returns), a delegate that raises [e] is run, raises,
    and makes the wrapper throw. *)
Theorem hard_failure_carries_delegate_error E w :
  (forall logData d e,
     EvJsonDelegate d (Throws e) ∈ new_events w (snd (parseDatamodelLogs E logData w)) ->
     fst (parseDatamodelLogs E logData w) =
       Throws (Error ("Failed to parse logs: " +:+ message e)) /\
     contains ("Failed to parse logs: " +:+ message e) (message e)) /\
  (forall parsedData specVersion d e,
     EvJsonDelegate d (Throws e)
       ∈ new_events w (snd (validateDeviceConformance E parsedData specVersion w)) ->
     fst (validateDeviceConformance E parsedData specVersion w) =
       Throws (Error ("Validation failed: " +:+ message e)) /\
     contains ("Validation failed: " +:+ message e) (message e)) /\
  (forall w1 e,
     ensurePyodideReady E w = (Returns tt, w1) ->
     (forall tr d, runJsonDelegate E tr d = Throws e) ->
     (forall logData,
        (py_triple_quoted (escapeLogData logData) = None ->
         exists bound,
           runOtherLiteral E (trace w1) (escapeLogData logData) = Returns bound) ->
        fst (parseDatamodelLogs E logData w) =
          Throws (Error ("Failed to parse logs: " +:+ message e)) /\
        exists arg,
          EvJsonDelegate (parse_datamodel_logs arg) (Throws e)
            ∈ new_events w1 (snd (parseDatamodelLogs E logData w))) /\
     (forall parsedData specVersion s,
        JSON_stringify E parsedData = Returns s ->
        fst (validateDeviceConformance E parsedData specVersion w) =
          Throws (Error ("Validation failed: " +:+ message e)) /\
        EvJsonDelegate
          (validate_device_conformance (Some (json_text s)) (Some (PyStr specVersion)))
          (Throws e)
          ∈ new_events w1 (snd (validateDeviceConformance E parsedData specVersion w)))).
Proof.
  split; [|split].
  3: { intros w1 e Hgate Hfail. split.
       - intros logData Hlit. unfold parseDatamodelLogs, run_log_literal.
         rewrite (bind_gate_open E _ w w1 Hgate).
         destruct (py_triple_quoted (escapeLogData logData)) as [v|] eqn:Hl.
         + run_m. rewrite Hfail. simpl. split; [done|].
           eexists. new_events_now. in_list.
         + destruct (Hlit eq_refl) as [bound Hb]. run_m. rewrite Hb. simpl.
           destruct bound; run_m; rewrite Hfail; simpl.
           all: split; [done|]; eexists; new_events_now; in_list.
       - intros parsedData specVersion s Hs. unfold validateDeviceConformance.
         rewrite (bind_gate_open E _ w w1 Hgate).
         run_m. rewrite Hs. simpl.
         rewrite lookup_insert_eq, lookup_insert_ne, lookup_insert_eq by done.
         rewrite Hfail. simpl. split; [done|]. new_events_now. in_list. }
  all: destruct (ensurePyodideReady E w) as [[[]|e0] w1] eqn:Hgate;
    destruct (gate_events E w _ w1 Hgate) as (evs & Htr & Hevs).
  - intros logData d e. unfold parseDatamodelLogs, run_log_literal.
    rewrite (bind_gate_open E _ w w1 Hgate).
    body_cases E; call_events Htr.
    all: intros Hin; invert_call Hin Hevs.
    all: split; [done|apply contains_suffix].
  - intros logData d e. unfold parseDatamodelLogs.
    rewrite (bind_gate_closed E _ w e0 w1 Hgate).
    unfold new_events. simpl. rewrite Htr, drop_app_length.
    intros Hin. exfalso. by apply (quiet_no_delegate _ _ Hevs Hin).
  - intros parsedData specVersion d e. unfold validateDeviceConformance.
    rewrite (bind_gate_open E _ w w1 Hgate).
    body_cases E; call_events Htr.
    all: intros Hin; invert_call Hin Hevs.
    all: split; [done|apply contains_suffix].
  - intros parsedData specVersion d e. unfold validateDeviceConformance.
    rewrite (bind_gate_closed E _ w e0 w1 Hgate).
    unfold new_events. simpl. rewrite Htr, drop_app_length.
    intros Hin. exfalso. by apply (quiet_no_delegate _ _ Hevs Hin).
Qed.

(** *** Runs in the sample environments *)

Lemma gate_open_after_load E :
  pythonModulesLoaded (after_load E) = true ->
  ensurePyodideReady E (after_load E) = (Returns tt, after_load E).
Proof. apply reachable_gate_open, reachable_after_load. Qed.

Lemma getSupportedVersions_degrades_witness :
  ensurePyodideReady env_delegate_fails (after_load env_delegate_fails) = (Returns tt, after_load env_delegate_fails) /\
  fst (getSupportedVersions env_delegate_fails (after_load env_delegate_fails)) =
    Returns fallback_versions.
Proof.
  assert (Hgate : ensurePyodideReady env_delegate_fails (after_load env_delegate_fails) =
                  (Returns tt, after_load env_delegate_fails))
    by (apply gate_open_after_load; vm_compute; reflexivity).
  split; [exact Hgate|].
  apply (proj1 (proj2 (getSupportedVersions_degrades env_delegate_fails
                         (after_load env_delegate_fails)
                         (after_load env_delegate_fails) Hgate))
           (Error "PythonError: ValueError: no endpoints found")).
  assert (Hnew : new_events (after_load env_delegate_fails)
                   (snd (getSupportedVersions env_delegate_fails (after_load env_delegate_fails)))
                 = [EvJsonDelegate SUPPORTED_SPEC_VERSIONS
                      (Throws (Error "PythonError: ValueError: no endpoints found"));
                    EvConsole LError "Error getting supported versions:"
                      (Some (Error "PythonError: ValueError: no endpoints found"))])
    by (vm_compute; reflexivity).
  rewrite Hnew. in_list.
Defined.

(** C7, as stated, fails: when no strategy installed the package, the
    module is not loaded and [getSupportedVersions] throws. *)
Lemma getSupportedVersions_throws_when_not_loaded :
  reachable env_no_package (after_load env_no_package) /\
  pyodide (after_load env_no_package) = Some 1 /\
  pythonModulesLoaded (after_load env_no_package) = false /\
  getSupportedVersions env_no_package (after_load env_no_package) =
    (Throws modules_not_loaded, after_load env_no_package).
Proof.
  split; [apply reachable_after_load|].
  assert (Hpy : pyodide (after_load env_no_package) = Some 1) by (vm_compute; reflexivity).
  assert (Hfl : pythonModulesLoaded (after_load env_no_package) = false)
    by (vm_compute; reflexivity).
  split; [exact Hpy|]. split; [exact Hfl|].
  exact (getSupportedVersions_closed env_no_package _ 1 Hpy Hfl).
Qed.

Lemma detectSpecVersion_soft_failure_witness :
  ensurePyodideReady env_delegate_fails (after_load env_delegate_fails) = (Returns tt, after_load env_delegate_fails) /\
  fst (detectSpecVersion env_delegate_fails (JObj []) (after_load env_delegate_fails)) =
    Returns JNull.
Proof.
  assert (Hgate : ensurePyodideReady env_delegate_fails (after_load env_delegate_fails) =
                  (Returns tt, after_load env_delegate_fails))
    by (apply gate_open_after_load; vm_compute; reflexivity).
  split; [exact Hgate|].
  apply (proj2 (proj2 (detectSpecVersion_soft_failure env_delegate_fails
                         (after_load env_delegate_fails)
                         (after_load env_delegate_fails) Hgate (JObj [])))
           (Some (PyStr "{}")) (Error "PythonError: KeyError: 'endpoints'")).
  assert (Hnew : new_events (after_load env_delegate_fails)
                   (snd (detectSpecVersion env_delegate_fails (JObj [])
                           (after_load env_delegate_fails)))
                 = [EvGlobalsSet "parsed_data_json" (PyStr "{}");
                    EvDetect (Some (PyStr "{}"))
                      (Throws (Error "PythonError: KeyError: 'endpoints'"));
                    EvConsole LError "Error detecting version:"
                      (Some (Error "PythonError: KeyError: 'endpoints'"))])
    by (vm_compute; reflexivity).
  rewrite Hnew. in_list.
Defined.

Lemma hard_failure_carries_delegate_error_witness :
  ensurePyodideReady env_delegate_fails (after_load env_delegate_fails) =
    (Returns tt, after_load env_delegate_fails) /\
  fst (parseDatamodelLogs env_delegate_fails "endpoint 0" (after_load env_delegate_fails)) =
    Throws (Error "Failed to parse logs: PythonError: ValueError: no endpoints found") /\
  fst (validateDeviceConformance env_delegate_fails (JArr []) "1.4"
         (after_load env_delegate_fails)) =
    Throws (Error "Validation failed: PythonError: ValueError: no endpoints found") /\
  EvJsonDelegate
    (validate_device_conformance (Some (PyStr "[]")) (Some (PyStr "1.4")))
    (Throws (Error "PythonError: ValueError: no endpoints found"))
    ∈ new_events (after_load env_delegate_fails)
        (snd (validateDeviceConformance env_delegate_fails (JArr []) "1.4"
                (after_load env_delegate_fails))).
Proof.
  assert (Hgate : ensurePyodideReady env_delegate_fails (after_load env_delegate_fails) =
                  (Returns tt, after_load env_delegate_fails))
    by (apply gate_open_after_load; vm_compute; reflexivity).
  split; [exact Hgate|].
  destruct (proj2 (proj2 (hard_failure_carries_delegate_error env_delegate_fails
                            (after_load env_delegate_fails)))
              (after_load env_delegate_fails)
              (Error "PythonError: ValueError: no endpoints found")
              Hgate (fun tr d => eq_refl)) as [Hparse Hvalidate].
  split.
  - apply (Hparse "endpoint 0"). intros Hnone. exfalso. revert Hnone.
    vm_compute. discriminate.
  - exact (Hvalidate (JArr []) "1.4" (Some "[]") eq_refl).
Defined.

Lemma detectSpecVersion_defaults_to_master_witness :
  ensurePyodideReady env_detect_none (after_load env_detect_none) = (Returns tt, after_load env_detect_none) /\
  fst (detectSpecVersion env_detect_none (JObj []) (after_load env_detect_none)) =
    Returns (JStr "master").
Proof.
  assert (Hgate : ensurePyodideReady env_detect_none (after_load env_detect_none) =
                  (Returns tt, after_load env_detect_none))
    by (apply gate_open_after_load; vm_compute; reflexivity).
  split; [exact Hgate|].
  apply (proj1 (detectSpecVersion_defaults_to_master env_detect_none
                  (after_load env_detect_none)
                  (after_load env_detect_none) Hgate (JObj []))
           (Some (PyStr "{}")) PyNone).
  assert (Hnew : new_events (after_load env_detect_none)
                   (snd (detectSpecVersion env_detect_none (JObj [])
                           (after_load env_detect_none)))
                 = [EvGlobalsSet "parsed_data_json" (PyStr "{}");
                    EvDetect (Some (PyStr "{}")) (Returns PyNone)])
    by (vm_compute; reflexivity).
  rewrite Hnew. in_list.
Defined.

(** * Further properties *)

(** ** What the module variables keep *)

Lemma persists_refl w : persists w w.
Proof. by repeat split. Qed.

Lemma persists_trans w1 w2 w3 : persists w1 w2 -> persists w2 w3 -> persists w1 w3.
Proof.
  intros (H1 & H2 & H3) (K1 & K2 & K3). split; [|split]; auto.
Qed.

Lemma frame_persists P w w' : frame P w w' -> persists w w'.
Proof.
  intros (Hpy & Hfl & Hpr & _). unfold persists. rewrite Hpy, Hfl, Hpr. by repeat split.
Qed.

(** Initialization adds only events of its own kind and never takes back
    the flag. *)
Lemma initializePyodide_events E w :
  pyodide w = None ->
  (pythonModulesLoaded w = true ->
   pythonModulesLoaded (snd (initializePyodide E w)) = true) /\
  exists new, trace (snd (initializePyodide E w)) = trace w ++ new /\
              forallb is_init_event new = true.
Proof.
  intros Hnone. init_cases E w.
  all: split; [first [done | by rewrite ?Hfl]|].
  all: flat_trace; eexists; (split; [reflexivity|]); simpl.
  all: rewrite ?forallb_app; simpl.
  all: try rewrite (forallb_weaken is_provisioning is_init_event evs) by (done || by intros []).
  all: done.
Qed.

Lemma initializePyodide_persists E w : persists w (snd (initializePyodide E w)).
Proof.
  destruct (pyodide w) as [h|] eqn:Hpy.
  - unfold initializePyodide. rewrite Hpy. apply persists_refl.
  - destruct (initializePyodide_shape E w Hpy) as (Hpr & _).
    destruct (initializePyodide_events E w Hpy) as (Hfl & _).
    split; [|split]; [intros h Hh; congruence | done | intros p Hp; congruence].
Qed.

Lemma ensurePyodideReady_persists E w : persists w (snd (ensurePyodideReady E w)).
Proof.
  rewrite ensurePyodideReady_world. destruct (pyodide w) eqn:Hpy.
  - apply persists_refl.
  - pose proof (initializePyodide_persists E w) as H. done.
Qed.

Lemma wrapper_body_persists E c w : persists w (snd (wrapper_body E c w)).
Proof.
  eapply persists_trans; [apply ensurePyodideReady_persists|].
  eapply frame_persists, wrapper_body_frame.
Qed.

Lemma getPyodide_persists E w : persists w (snd (getPyodide E w)).
Proof.
  unfold getPyodide. destruct (initializationPromise w) as [p|] eqn:Hpr.
  - apply persists_refl.
  - pose proof (initializePyodide_persists E w) as (H1 & H2 & H3).
    destruct (initializePyodide E w) as [r w']. simpl in *.
    split; [|split]; [done | done | intros p Hp; congruence].
Qed.

Lemma module_load_persists E w : persists w (snd (module_load E w)).
Proof.
  unfold module_load. run_m.
  pose proof (getPyodide_persists E w) as H.
  destruct (getPyodide E w) as [[h|e] w1]; simpl in *; page_cases E.
  all: eapply persists_trans; [exact H|].
  all: by repeat split.
Qed.

Lemma run_call_persists E c w : persists w (run_call E c w).
Proof.
  destruct c; simpl.
  - apply module_load_persists.
  - apply getPyodide_persists.
  - apply wrapper_body_persists.
Qed.

Lemma run_calls_persists E calls : forall w, persists w (run_calls E calls w).
Proof.
  induction calls as [|c calls IH]; intros w; [apply persists_refl|].
  eapply persists_trans; [apply (run_call_persists E c)|apply IH].
Qed.

Lemma run_calls_reachable E calls : forall w, reachable E w -> reachable E (run_calls E calls w).
Proof.
  induction calls as [|c calls IH]; intros w Hw; [done|].
  apply IH. by apply reachable_call.
Qed.

(** X1: once the promise of [getPyodide] has settled, every later
    [getPyodide] answers with the same outcome and does nothing, whatever
    calls were made in between. *)
Theorem getPyodide_answers_once E w p calls :
  initializationPromise w = Some p ->
  getPyodide E (run_calls E calls w) = (p, run_calls E calls w).
Proof.
  intros Hp. apply getPyodide_memoized.
  by apply (run_calls_persists E calls w).
Qed.

Lemma getPyodide_answers_once_witness :
  initializationPromise (after_load env_flaky_boot) =
    Some (Throws (Error "NetworkError: failed to fetch pyodide.js")) /\
  getPyodide env_flaky_boot
    (run_calls env_flaky_boot [CRemote WGetSupportedVersions; CGetPyodide]
       (after_load env_flaky_boot)) =
  (Throws (Error "NetworkError: failed to fetch pyodide.js"),
   run_calls env_flaky_boot [CRemote WGetSupportedVersions; CGetPyodide]
     (after_load env_flaky_boot)).
Proof.
  assert (Hp : initializationPromise (after_load env_flaky_boot) =
               Some (Throws (Error "NetworkError: failed to fetch pyodide.js")))
    by (vm_compute; reflexivity).
  split; [exact Hp|].
  exact (getPyodide_answers_once env_flaky_boot (after_load env_flaky_boot) _
           [CRemote WGetSupportedVersions; CGetPyodide] Hp).
Defined.

(** X2: between two calls, once [pythonModulesLoaded] is true it stays
    true, and every later remote call passes the readiness check without
    touching the world, whatever calls were made in between. *)
Theorem loaded_modules_stay_loaded E w calls :
  reachable E w -> pythonModulesLoaded w = true ->
  pythonModulesLoaded (run_calls E calls w) = true /\
  ensurePyodideReady E (run_calls E calls w) = (Returns tt, run_calls E calls w).
Proof.
  intros Hr Hfl.
  assert (Hfl' : pythonModulesLoaded (run_calls E calls w) = true)
    by by apply (run_calls_persists E calls w).
  split; [done|]. apply reachable_gate_open; [|done]. by apply run_calls_reachable.
Qed.

Lemma loaded_modules_stay_loaded_witness :
  reachable env_patch_fails (after_load env_patch_fails) /\
  pythonModulesLoaded (after_load env_patch_fails) = true /\
  pythonModulesLoaded
    (run_calls env_patch_fails [CGetPyodide; CRemote (WDetectSpecVersion JNull)]
       (after_load env_patch_fails)) = true.
Proof.
  assert (Hfl : pythonModulesLoaded (after_load env_patch_fails) = true)
    by (vm_compute; reflexivity).
  split; [apply reachable_after_load|]. split; [exact Hfl|].
  exact (proj1 (loaded_modules_stay_loaded env_patch_fails (after_load env_patch_fails)
                  [CGetPyodide; CRemote (WDetectSpecVersion JNull)]
                  (reachable_after_load env_patch_fails) Hfl)).
Defined.

(** ** After the runtime has been booted *)

Lemma wrapper_body_files E c w :
  FS (snd (wrapper_body E c w)) = FS (snd (ensurePyodideReady E w)).
Proof.
  wrapper_cases E c w; simpl.
  all: try reflexivity.
  all: body_cases E.
  all: reflexivity.
Qed.

Lemma remote_after_boot evs :
  forallb is_remote evs = true -> forallb is_after_boot evs = true.
Proof. apply forallb_weaken. by intros []. Qed.

Lemma run_call_after_boot E c w h :
  pyodide w = Some h ->
  pyodide (run_call E c w) = Some h /\
  pythonModulesLoaded (run_call E c w) = pythonModulesLoaded w /\
  FS (run_call E c w) = FS w /\
  exists evs, trace (run_call E c w) = trace w ++ evs /\ forallb is_after_boot evs = true.
Proof.
  intros Hpy.
  assert (Hinit : initializePyodide E w = (Returns h, w))
    by (unfold initializePyodide; by rewrite Hpy).
  assert (Hget : pyodide (snd (getPyodide E w)) = Some h /\
                 pythonModulesLoaded (snd (getPyodide E w)) = pythonModulesLoaded w /\
                 FS (snd (getPyodide E w)) = FS w /\
                 trace (snd (getPyodide E w)) = trace w).
  { unfold getPyodide. destruct (initializationPromise w); [done|]. by rewrite Hinit. }
  destruct c as [| |c]; simpl.
  - unfold module_load. run_m. destruct Hget as (G1 & G2 & G3 & G4).
    destruct (getPyodide E w) as [[h'|e] w1]; simpl in *; page_cases E.
    all: repeat (split; [done|]).
    all: rewrite G4, <- ?app_assoc; eexists; split; [reflexivity|done].
  - destruct Hget as (G1 & G2 & G3 & G4). repeat (split; [done|]).
    exists []. by rewrite app_nil_r.
  - pose proof (wrapper_body_frame E c w) as (F1 & F2 & _ & evs & F4 & F5).
    pose proof (wrapper_body_files E c w) as F6.
    rewrite ensurePyodideReady_world, Hpy in F1, F2, F4, F6.
    split; [congruence|]. split; [done|]. split; [done|].
    exists evs. split; [done|]. by apply remote_after_boot.
Qed.

Lemma initializePyodide_grows E w :
  exists evs, trace (snd (initializePyodide E w)) = trace w ++ evs.
Proof.
  destruct (pyodide w) eqn:Hpy.
  - unfold initializePyodide. rewrite Hpy. exists []. by rewrite app_nil_r.
  - destruct (initializePyodide_shape E w Hpy) as (_ & (new & Hn & _) & _). by exists new.
Qed.

Lemma getPyodide_grows E w :
  exists evs, trace (snd (getPyodide E w)) = trace w ++ evs.
Proof.
  unfold getPyodide. destruct (initializationPromise w).
  - exists []. by rewrite app_nil_r.
  - destruct (initializePyodide_grows E w) as [evs Hevs].
    destruct (initializePyodide E w). by exists evs.
Qed.

Lemma run_call_grows E c w :
  exists evs, trace (run_call E c w) = trace w ++ evs.
Proof.
  destruct c as [| |c]; simpl.
  - unfold module_load. run_m. destruct (getPyodide_grows E w) as [evs Hevs].
    destruct (getPyodide E w) as [[?|?] w1]; simpl in *; page_cases E.
    all: rewrite Hevs, <- ?app_assoc; by eexists.
  - apply getPyodide_grows.
  - destruct (wrapper_body_frame E c w) as (_ & _ & _ & evs & F4 & _).
    destruct (ensurePyodideReady_quiet E w) as (_ & evs' & G4 & _).
    rewrite F4, G4, <- app_assoc. by eexists.
Qed.

Lemma run_calls_grows E calls : forall w,
  exists evs, trace (run_calls E calls w) = trace w ++ evs.
Proof.
  induction calls as [|c calls IH]; intros w.
  - exists []. by rewrite app_nil_r.
  - simpl. destruct (IH (run_call E c w)) as [evs2 H2].
    destruct (run_call_grows E c w) as [evs1 H1].
    rewrite H2, H1, <- app_assoc. by eexists.
Qed.

(** X3: once a runtime handle exists, no call ever boots a runtime,
    runs a set-up script, fetches or writes a file, or assigns the flag
    again: the handle, [pythonModulesLoaded] and the filesystem stay as
    they are.  In particular an installation that failed is never
    retried. *)
Theorem nothing_is_set_up_twice E h calls : forall w,
  pyodide w = Some h ->
  pyodide (run_calls E calls w) = Some h /\
  pythonModulesLoaded (run_calls E calls w) = pythonModulesLoaded w /\
  FS (run_calls E calls w) = FS w /\
  forallb is_after_boot (new_events w (run_calls E calls w)) = true.
Proof.
  induction calls as [|c calls IH]; intros w Hpy.
  - repeat (split; [done|]). unfold new_events. simpl. by rewrite drop_all.
  - destruct (run_call_after_boot E c w h Hpy) as (H1 & H2 & H3 & evs & H4 & H5).
    destruct (IH (run_call E c w) H1) as (K1 & K2 & K3 & K4).
    simpl. split; [done|]. split; [congruence|]. split; [congruence|].
    destruct (run_calls_grows E calls (run_call E c w)) as [evs' Hevs'].
    unfold new_events in *. rewrite Hevs', drop_app_length in K4.
    rewrite Hevs', H4, <- app_assoc, drop_app_length.
    by rewrite forallb_app, H5, K4.
Qed.

Lemma nothing_is_set_up_twice_witness :
  pyodide (after_load env_no_package) = Some 1 /\
  pythonModulesLoaded
    (run_calls env_no_package [CRemote WGetSupportedVersions; CGetPyodide; CModuleLoad]
       (after_load env_no_package)) = false.
Proof.
  assert (Hpy : pyodide (after_load env_no_package) = Some 1) by (vm_compute; reflexivity).
  assert (Hfl : pythonModulesLoaded (after_load env_no_package) = false)
    by (vm_compute; reflexivity).
  split; [exact Hpy|].
  rewrite <- Hfl.
  exact (proj1 (proj2 (nothing_is_set_up_twice env_no_package 1
                         [CRemote WGetSupportedVersions; CGetPyodide; CModuleLoad]
                         (after_load env_no_package) Hpy))).
Defined.

(** ** How initialization and the readiness check end *)

(** X4: the readiness check fails in exactly two ways: a handle exists
    but the modules are not loaded, and then the error is [Python modules
    not loaded] and nothing was done; or no handle existed, and then the
    error is the one initialization was rejected with. *)
Theorem readiness_check_fails_two_ways E w e w1 :
  ensurePyodideReady E w = (Throws e, w1) ->
  (is_Some (pyodide w) /\ pythonModulesLoaded w = false /\
   e = modules_not_loaded /\ w1 = w) \/
  (pyodide w = None /\ initializePyodide E w = (Throws e, w1)).
Proof.
  unfold ensurePyodideReady, bind, ret.
  destruct (pyodide w) as [h|] eqn:Hpy; simpl.
  - destruct (pythonModulesLoaded w) eqn:Hfl; intros [= <- <-]. left. by repeat split.
  - destruct (initializePyodide_shape E w Hpy) as (_ & _ & Hret & _).
    destruct (initializePyodide E w) as [[h|e0] w0]; simpl in *.
    + destruct (Hret h eq_refl) as [_ Hfl0]. rewrite Hfl0. discriminate.
    + intros [= <- <-]. by right.
Qed.

Lemma readiness_check_fails_two_ways_witness :
  ensurePyodideReady env_no_package (after_load env_no_package) =
    (Throws modules_not_loaded, after_load env_no_package) /\
  is_Some (pyodide (after_load env_no_package)).
Proof.
  assert (Hgate : ensurePyodideReady env_no_package (after_load env_no_package) =
                  (Throws modules_not_loaded, after_load env_no_package)).
  { apply (ensurePyodideReady_closed _ _ 1); vm_compute; reflexivity. }
  split; [exact Hgate|].
  destruct (readiness_check_fails_two_ways env_no_package _ _ _ Hgate)
    as [(Hsome & _)|(Hnone & _)]; [exact Hsome|].
  exfalso. revert Hnone. vm_compute. discriminate.
Defined.

(** X5: when initialization is rejected, the error is the
    package-unavailable error, or exactly the error that [loadPyodide]
    threw, or exactly the error that the script of the support package,
    of the data directory or of the loader patch threw.  The errors of the
    two installers, of [fetch] and of [writeFile] are never passed on
    as such. *)
Theorem initialization_error_origin E w e :
  fst (initializePyodide E w) = Throws e ->
  e = package_unavailable \/
  EvLoadPyodide (Throws e) ∈ new_events w (snd (initializePyodide E w)) \/
  exists s, s ∈ [InstallHttpShim; MakeDataDir; PatchLoader] /\
            EvSetup s (Throws e) ∈ new_events w (snd (initializePyodide E w)).
Proof.
  destruct (pyodide w) as [h|] eqn:Hnone.
  { unfold initializePyodide. rewrite Hnone. discriminate. }
  init_cases E w.
  all: intros Heq; first [discriminate Heq | injection Heq as <-].
  all: try (left; reflexivity).
  all: right.
  all: unfold new_events; flat_trace; rewrite drop_app_length.
  all: first
    [ left; in_list
    | right; eexists; split; [|rewrite ?elem_of_cons, ?elem_of_app, ?elem_of_cons; eauto 20];
      in_list ].
Qed.

Lemma initialization_error_origin_witness :
  fst (initializePyodide env_patch_fails initial) =
    Throws (Error "ModuleNotFoundError: No module named 'validators'") /\
  (Error "ModuleNotFoundError: No module named 'validators'" = package_unavailable \/
   EvLoadPyodide (Throws (Error "ModuleNotFoundError: No module named 'validators'"))
     ∈ new_events initial (snd (initializePyodide env_patch_fails initial)) \/
   exists s, s ∈ [InstallHttpShim; MakeDataDir; PatchLoader] /\
     EvSetup s (Throws (Error "ModuleNotFoundError: No module named 'validators'"))
       ∈ new_events initial (snd (initializePyodide env_patch_fails initial))).
Proof.
  assert (Hfail : fst (initializePyodide env_patch_fails initial) =
                  Throws (Error "ModuleNotFoundError: No module named 'validators'"))
    by (vm_compute; reflexivity).
  split; [exact Hfail|].
  exact (initialization_error_origin env_patch_fails initial _ Hfail).
Defined.

(** X6: whatever [fetch] and [writeFile] do, initialization succeeds as
    soon as [loadPyodide] and every script succeed: it returns the handle,
    keeps it, and the modules are loaded. *)
Theorem provisioning_is_best_effort E w h :
  pyodide w = None ->
  (forall tr, loadPyodide E tr = Returns h) ->
  (forall tr s, runSetup E tr s = Returns tt) ->
  fst (initializePyodide E w) = Returns h /\
  pyodide (snd (initializePyodide E w)) = Some h /\
  pythonModulesLoaded (snd (initializePyodide E w)) = true.
Proof.
  intros Hnone Hboot' Hsetup'. init_cases E w.
  all: try (rewrite Hboot' in Hboot; discriminate Hboot).
  all: try (rewrite Hsetup' in Hshim; discriminate Hshim).
  all: try (rewrite Hsetup' in Hwheel; discriminate Hwheel).
  all: try (rewrite Hsetup' in Hindex; discriminate Hindex).
  all: try (rewrite Hsetup' in Hmkdir; discriminate Hmkdir).
  all: try (rewrite Hsetup' in Hpatch; discriminate Hpatch).
  all: rewrite Hboot' in Hboot; injection Hboot as <-.
  all: by rewrite ?Hpy.
Qed.

Lemma provisioning_is_best_effort_witness :
  pyodide initial = None /\
  fst (initializePyodide env_no_data initial) = Returns 1 /\
  pythonModulesLoaded (snd (initializePyodide env_no_data initial)) = true /\
  FS (snd (initializePyodide env_no_data initial)) = ∅.
Proof.
  split; [reflexivity|].
  destruct (provisioning_is_best_effort env_no_data initial 1 eq_refl
              (fun tr => eq_refl) (fun tr s => eq_refl)) as (Hret & _ & Hfl).
  split; [exact Hret|]. split; [exact Hfl|]. vm_compute. reflexivity.
Defined.

(** X7: when the wheel of the configured URL installs, initialization
    returns the handle without trying the package index, without fetching
    or writing a document and without patching the loader. *)
Theorem wheel_install_skips_provisioning E w url :
  pyodide w = None ->
  EvSetup (InstallWheel url) (Returns tt) ∈ new_events w (snd (initializePyodide E w)) ->
  (exists h, fst (initializePyodide E w) = Returns h) /\
  FS (snd (initializePyodide E w)) = FS w /\
  fetched (new_events w (snd (initializePyodide E w))) = [] /\
  forallb (fun e => negb (is_data_step e)) (new_events w (snd (initializePyodide E w))) = true /\
  install_attempts (new_events w (snd (initializePyodide E w))) = [(InstallWheel url, true)].
Proof.
  intros Hnone. init_cases E w.
  all: unfold new_events; flat_trace; rewrite drop_app_length.
  all: intros Hin.
  all: repeat (apply elem_of_cons in Hin as [Hin|Hin];
               [first [discriminate Hin | injection Hin as ?; subst]|]).
  all: try (apply elem_of_app in Hin as [Hin|Hin];
            [ exfalso; rewrite forallb_forall in Hevs;
              apply list_elem_of_In, Hevs in Hin; discriminate Hin | ]).
  all: repeat (apply elem_of_cons in Hin as [Hin|Hin];
               [first [discriminate Hin | injection Hin as ?; subst]|]).
  all: try (by apply elem_of_nil in Hin).
  all: split; [by eexists|]. all: by repeat split.
Qed.

Lemma wheel_install_skips_provisioning_witness :
  pyodide initial = None /\
  FS (snd (initializePyodide env_wheel initial)) = FS initial /\
  fetched (new_events initial (snd (initializePyodide env_wheel initial))) = [].
Proof.
  split; [reflexivity|].
  assert (Hin : EvSetup (InstallWheel "https://example.org/dmv_tool-1.0-py3-none-any.whl")
                  (Returns tt)
                ∈ new_events initial (snd (initializePyodide env_wheel initial))).
  { assert (Hnew : new_events initial (snd (initializePyodide env_wheel initial)) =
                   [EvConsole LLog "Loading Pyodide..." None; EvLoadPyodide (Returns 1);
                    EvConsole LLog "Pyodide loaded, installing packages..." None;
                    EvSetup InstallHttpShim (Returns tt);
                    EvConsole LLog "Loading dmv_tool package..." None;
                    EvSetup (InstallWheel "https://example.org/dmv_tool-1.0-py3-none-any.whl")
                      (Returns tt);
                    EvModulesLoaded;
                    EvConsole LLog "Python modules loaded from wheel" None])
      by (vm_compute; reflexivity).
    rewrite Hnew. in_list. }
  destruct (wheel_install_skips_provisioning env_wheel initial _ eq_refl Hin)
    as (_ & HFS & Hfetched & _).
  by split.
Defined.

(** ** Where the files of the runtime come from *)

Lemma fetched_app tr1 tr2 : fetched (tr1 ++ tr2) = fetched tr1 ++ fetched tr2.
Proof. apply omap_app. Qed.

Lemma provisioning_no_patch evs :
  forallb is_provisioning evs = true -> forallb (fun e => negb (is_patch e)) evs = true.
Proof. apply forallb_weaken. by intros []. Qed.

(** One turn of the loop fetches the document of its version, and changes
    the filesystem only by writing what an accepted response carried. *)
Lemma loadValidationData_steps E v w :
  exists evs,
    trace (snd (loadValidationData E v w)) = trace w ++ evs /\
    fetched evs = [data_url v] /\
    (FS (snd (loadValidationData E v w)) = FS w \/
     exists d,
       FS (snd (loadValidationData E v w)) = <[data_path v := d]> (FS w) /\
       EvFetch (data_url v) (Returns (mkResponse true (Returns d))) ∈ evs /\
       EvWriteFile (data_path v) d (Returns tt) ∈ evs).
Proof.
  unfold loadValidationData. run_m.
  destruct (fetch E (trace w) (data_url v)) as [[okr txt]|e]; simpl.
  - destruct okr; simpl.
    + destruct txt as [jsonData|e]; simpl.
      * destruct (FS_writeFile E _ _ _) as [[]|e]; simpl.
        -- eexists. split; [by rewrite <- app_assoc|]. split; [done|].
           right. exists jsonData. split; [done|]. split; in_list.
        -- eexists. split; [by rewrite <- !app_assoc|]. split; [done|]. by left.
      * eexists. split; [by rewrite <- !app_assoc|]. split; [done|]. by left.
    + eexists. split; [done|]. split; [done|]. by left.
  - eexists. split; [by rewrite <- !app_assoc|]. split; [done|]. by left.
Qed.

Lemma file_provenance_grows w w' evs :
  file_provenance w -> FS w' = FS w -> trace w' = trace w ++ evs -> file_provenance w'.
Proof.
  intros Hw HFS Htr path d Hlook. rewrite HFS in Hlook.
  destruct (Hw path d Hlook) as (v & Hv & Hpath & Hf & Hwr).
  exists v. rewrite Htr. repeat split; try done; by apply elem_of_app_there.
Qed.

Lemma loadValidationData_provenance E v w :
  v ∈ validationDataVersions -> file_provenance w ->
  file_provenance (snd (loadValidationData E v w)).
Proof.
  intros Hv Hw. destruct (loadValidationData_steps E v w) as (evs & Htr & _ & [HFS|(d & HFS & Hf & Hwr)]).
  - by eapply file_provenance_grows.
  - intros path d' Hlook. rewrite HFS in Hlook.
    destruct (decide (path = data_path v)) as [->|Hne].
    + rewrite lookup_insert_eq in Hlook. injection Hlook as <-.
      exists v. rewrite Htr. repeat split; try done; apply elem_of_app; by right.
    + rewrite lookup_insert_ne in Hlook by done.
      destruct (Hw path d' Hlook) as (v' & Hv' & Hpath & Hf' & Hwr').
      exists v'. rewrite Htr. repeat split; try done; by apply elem_of_app_there.
Qed.

Lemma provisioning_steps E vs : forall w,
  Forall (fun v => v ∈ validationDataVersions) vs ->
  (file_provenance w -> file_provenance (snd (for_of vs (loadValidationData E) w))) /\
  fetched (new_events w (snd (for_of vs (loadValidationData E) w))) = data_url <$> vs.
Proof.
  induction vs as [|v vs IH]; intros w Hvs.
  - split; [done|]. unfold new_events. simpl. by rewrite drop_all.
  - apply Forall_cons in Hvs as [Hv Hvs].
    rewrite for_of_cons. unfold bind.
    destruct (loadValidationData_frame E v w) as [Hret _].
    pose proof (loadValidationData_provenance E v w Hv) as Hprov.
    destruct (loadValidationData_steps E v w) as (evs & Htr & Hfetched & _).
    destruct (loadValidationData E v w) as [r w1]. simpl in *. subst r.
    destruct (IH w1 Hvs) as [IHprov IHfetched].
    destruct (provisioning_frame E vs w1) as (_ & _ & _ & _ & evs' & Htr' & _).
    split; [auto|].
    rewrite (new_events_app _ _ _ Htr') in IHfetched.
    rewrite (new_events_app w _ (evs ++ evs')) by (by rewrite Htr', Htr, app_assoc).
    by rewrite fetched_app, Hfetched, IHfetched.
Qed.

Lemma versions_listed : Forall (fun v => v ∈ validationDataVersions) validationDataVersions.
Proof. apply Forall_forall. auto. Qed.

Lemma initializePyodide_provenance E w :
  file_provenance w -> file_provenance (snd (initializePyodide E w)).
Proof.
  intros Hw. destruct (pyodide w) as [h|] eqn:Hnone.
  { unfold initializePyodide. by rewrite Hnone. }
  init_cases E w.
  all: try (eapply (file_provenance_grows w); [done|done|]; flat_trace; reflexivity).
  all: match type of Hrun with
       | for_of _ _ ?W = _ =>
           destruct (provisioning_steps E validationDataVersions W versions_listed)
             as [Hprov _];
           rewrite Hrun in Hprov; simpl in Hprov;
           assert (Hwl : file_provenance wl)
             by (apply Hprov; eapply (file_provenance_grows w); [done|done|];
                 flat_trace; reflexivity)
       end.
  all: eapply (file_provenance_grows wl); [done|done|]; simpl; rewrite <- ?app_assoc; reflexivity.
Qed.

Lemma getPyodide_provenance E w :
  file_provenance w -> file_provenance (snd (getPyodide E w)).
Proof.
  intros Hw. unfold getPyodide. destruct (initializationPromise w); [done|].
  pose proof (initializePyodide_provenance E w Hw) as H.
  by destruct (initializePyodide E w).
Qed.

Lemma ensurePyodideReady_provenance E w :
  file_provenance w -> file_provenance (snd (ensurePyodideReady E w)).
Proof.
  intros Hw. rewrite ensurePyodideReady_world.
  destruct (pyodide w); [done|]. by apply initializePyodide_provenance.
Qed.

Lemma run_call_provenance E c w :
  file_provenance w -> file_provenance (run_call E c w).
Proof.
  intros Hw. destruct c as [| |c]; simpl.
  - pose proof (getPyodide_provenance E w Hw) as H.
    unfold module_load. run_m.
    destruct (getPyodide E w) as [[?|?] w1]; simpl in *; page_cases E.
    all: eapply (file_provenance_grows w1); [done|done|]; simpl; rewrite <- ?app_assoc;
      first [reflexivity | symmetry; apply app_nil_r].
  - by apply getPyodide_provenance.
  - pose proof (ensurePyodideReady_provenance E w Hw) as H.
    destruct (wrapper_body_frame E c w) as (_ & _ & _ & evs & F4 & _).
    eapply file_provenance_grows; [exact H| |exact F4].
    apply wrapper_body_files.
Qed.

(** X8: whatever calls were made, every file of the runtime's
    filesystem is the file of one of the seven versions, and its content
    is the text of a response that [fetch] returned for that version's URL
    with [ok] set, written by a [writeFile] that succeeded.  No other path
    is ever written, and the responses that are not [ok] leave no file. *)
Theorem files_are_fetched_documents E w :
  reachable E w -> file_provenance w.
Proof.
  induction 1 as [|c w _ IH].
  - intros path d Hlook. simpl in Hlook. by rewrite lookup_empty in Hlook.
  - by apply run_call_provenance.
Qed.

Lemma files_are_fetched_documents_witness :
  FS (after_load env_fetch_141_fails) !! data_path "1.5" = Some (sample_document "1.5") /\
  EvFetch (data_url "1.5") (Returns (mkResponse true (Returns (sample_document "1.5"))))
    ∈ trace (after_load env_fetch_141_fails).
Proof.
  assert (Hlook : FS (after_load env_fetch_141_fails) !! data_path "1.5" =
                  Some (sample_document "1.5")) by (vm_compute; reflexivity).
  split; [exact Hlook|].
  destruct (files_are_fetched_documents env_fetch_141_fails _
              (reachable_after_load env_fetch_141_fails) _ _ Hlook)
    as (v & Hv & Hpath & Hf & _).
  assert (v = "1.5") as ->.
  { revert Hpath. clear -Hv. unfold validationDataVersions in Hv.
    repeat (apply elem_of_cons in Hv as [->|Hv]; [first [reflexivity | vm_compute; discriminate]|]).
    by apply elem_of_nil in Hv. }
  exact Hf.
Defined.

(** X9: when initialization reaches the patch of the data loader, the
    documents of all seven versions have been requested before it, once
    each and in the order of the list, whether or not the requests
    succeeded; after the patch nothing is fetched or written. *)
Theorem every_version_fetched_before_patch E w r :
  pyodide w = None ->
  EvSetup PatchLoader r ∈ new_events w (snd (initializePyodide E w)) ->
  exists pre post,
    new_events w (snd (initializePyodide E w)) = pre ++ EvSetup PatchLoader r :: post /\
    fetched pre = data_url <$> validationDataVersions /\
    forallb (fun e => negb (is_patch e)) pre = true /\
    forallb (fun e => negb (is_data_step e)) post = true.
Proof.
  intros Hnone. init_cases E w.
  all: unfold new_events; flat_trace; rewrite drop_app_length.
  all: intros Hin.
  all: repeat (apply elem_of_cons in Hin as [Hin|Hin];
               [first [discriminate Hin | injection Hin as ?; subst]|]).
  all: try (apply elem_of_app in Hin as [Hin|Hin];
            [ exfalso; rewrite forallb_forall in Hevs;
              apply list_elem_of_In, Hevs in Hin; discriminate Hin | ]).
  all: repeat (apply elem_of_cons in Hin as [Hin|Hin];
               [first [discriminate Hin | injection Hin as ?; subst]|]).
  all: try (by apply elem_of_nil in Hin).
  all: match type of Hrun with
       | for_of _ _ ?W = _ =>
           destruct (provisioning_steps E validationDataVersions W versions_listed)
             as [_ Hfetched];
           rewrite Hrun in Hfetched; cbn [snd] in Hfetched;
           rewrite (new_events_app W wl evs) in Hfetched by (simpl; exact Htr)
       end.
  all: match goal with
       | Hp : forallb is_provisioning ?l0 = true |- _ =>
           pose proof (provisioning_no_patch l0 Hp) as Hnp
       end.
  all: match goal with
       | |- exists pre post, ?l = _ /\ _ =>
           match l with
           | context C [?l0 ++ ?post'] =>
               is_var l0;
               let pre' := context C [l0] in
               exists pre', (tail post')
           end
       end.
  all: simpl; split; [reflexivity|].
  all: split; [exact Hfetched|]. all: split; [exact Hnp|reflexivity].
Qed.

Lemma every_version_fetched_before_patch_witness :
  pyodide initial = None /\
  exists pre post,
    new_events initial (snd (initializePyodide env_no_data initial)) =
      pre ++ EvSetup PatchLoader (Returns tt) :: post /\
    fetched pre = data_url <$> validationDataVersions.
Proof.
  split; [reflexivity|].
  assert (Hin : EvSetup PatchLoader (Returns tt)
                ∈ new_events initial (snd (initializePyodide env_no_data initial))).
  { apply (list_elem_of_lookup_2 _ 23). vm_compute. reflexivity. }
  destruct (every_version_fetched_before_patch env_no_data initial _ eq_refl Hin)
    as (pre & post & Hsplit & Hfetched & _).
  by exists pre, post.
Defined.

(** ** What the wrappers hand over and hand back *)

(** X10: the delegates of [detectSpecVersion] and of
    [validateDeviceConformance] are handed the arguments of this very
    call, whatever the namespace of the runtime held before: the text that
    [JSON.stringify] gave for [parsedData] ([None] when it gave
    [undefined]) and, for the validation, [specVersion] as a Python
    string. *)
Theorem delegates_receive_the_arguments E w w1 parsedData s :
  ensurePyodideReady E w = (Returns tt, w1) ->
  JSON_stringify E parsedData = Returns s ->
  (exists r,
     EvDetect (Some (json_text s)) r
       ∈ new_events w1 (snd (detectSpecVersion E parsedData w))) /\
  (forall specVersion, exists r,
     EvJsonDelegate
       (validate_device_conformance (Some (json_text s)) (Some (PyStr specVersion))) r
       ∈ new_events w1 (snd (validateDeviceConformance E parsedData specVersion w))).
Proof.
  intros Hgate Hs. split; [|intros specVersion].
  - unfold detectSpecVersion. rewrite (bind_gate_open E _ w w1 Hgate).
    run_m. rewrite Hs. simpl. rewrite lookup_insert_eq.
    body_cases E; new_events_now; eexists; in_list.
  - unfold validateDeviceConformance. rewrite (bind_gate_open E _ w w1 Hgate).
    run_m. rewrite Hs. simpl.
    rewrite lookup_insert_eq, lookup_insert_ne, lookup_insert_eq by done.
    body_cases E; new_events_now; eexists; in_list.
Qed.

Lemma delegates_receive_the_arguments_witness :
  exists r,
    EvJsonDelegate
      (validate_device_conformance (Some (PyStr "[]")) (Some (PyStr "1.4"))) r
      ∈ new_events (after_load env_ok)
          (snd (validateDeviceConformance env_ok (JArr []) "1.4" (after_load env_ok))).
Proof.
  assert (Hs : JSON_stringify env_ok (JArr []) = Returns (Some "[]"))
    by (vm_compute; reflexivity).
  assert (Hgate : ensurePyodideReady env_ok (after_load env_ok) =
                  (Returns tt, after_load env_ok))
    by (apply gate_open_after_load; vm_compute; reflexivity).
  destruct (delegates_receive_the_arguments env_ok _ _ (JArr []) _ Hgate Hs)
    as [_ Hvalidate].
  exact (Hvalidate "1.4").
Defined.

(** X11: once a delegate has returned its text, the three wrappers that
    expect JSON return what [JSON.parse] makes of it, unchecked; when
    [JSON.parse] throws, [parseDatamodelLogs] and
    [validateDeviceConformance] throw their own prefix followed by the
    message of the parser. *)
Theorem result_is_what_the_parser_returns E w d t :
  (forall logData,
     EvJsonDelegate d (Returns t) ∈ new_events w (snd (parseDatamodelLogs E logData w)) ->
     fst (parseDatamodelLogs E logData w) =
       match JSON_parse E t with
       | Returns v => Returns v
       | Throws e => Throws (Error ("Failed to parse logs: " +:+ message e))
       end) /\
  (forall parsedData specVersion,
     EvJsonDelegate d (Returns t)
       ∈ new_events w (snd (validateDeviceConformance E parsedData specVersion w)) ->
     fst (validateDeviceConformance E parsedData specVersion w) =
       match JSON_parse E t with
       | Returns v => Returns v
       | Throws e => Throws (Error ("Validation failed: " +:+ message e))
       end) /\
  (EvJsonDelegate d (Returns t) ∈ new_events w (snd (getSupportedVersions E w)) ->
   forall v, JSON_parse E t = Returns v ->
     fst (getSupportedVersions E w) = Returns v).
Proof.
  destruct (ensurePyodideReady E w) as [[[]|e0] w1] eqn:Hgate;
    destruct (gate_events E w _ w1 Hgate) as (evs & Htr & Hevs).
  - split; [|split].
    + intros logData. unfold parseDatamodelLogs, run_log_literal.
      rewrite (bind_gate_open E _ w w1 Hgate).
      body_cases E; call_events Htr.
      all: intros Hin; invert_call Hin Hevs.
      all: congruence.
    + intros parsedData specVersion. unfold validateDeviceConformance.
      rewrite (bind_gate_open E _ w w1 Hgate).
      body_cases E; call_events Htr.
      all: intros Hin; invert_call Hin Hevs.
      all: congruence.
    + unfold getSupportedVersions. rewrite (bind_gate_open E _ w w1 Hgate).
      body_cases E; call_events Htr.
      all: intros Hin; invert_call Hin Hevs.
      all: intros v' Hv'; congruence.
  - assert (Hquiet : forall ev, ev ∈ evs -> is_delegate ev = true -> False)
      by (intros ev; apply quiet_no_delegate, Hevs).
    split; [|split].
    + intros logData. unfold parseDatamodelLogs.
      rewrite (bind_gate_closed E _ w e0 w1 Hgate).
      unfold new_events. simpl. rewrite Htr, drop_app_length.
      intros Hin. exfalso. by apply (Hquiet _ Hin).
    + intros parsedData specVersion. unfold validateDeviceConformance.
      rewrite (bind_gate_closed E _ w e0 w1 Hgate).
      unfold new_events. simpl. rewrite Htr, drop_app_length.
      intros Hin. exfalso. by apply (Hquiet _ Hin).
    + unfold getSupportedVersions.
      rewrite (bind_gate_closed E _ w e0 w1 Hgate).
      unfold new_events. simpl. rewrite Htr, drop_app_length.
      intros Hin. exfalso. by apply (Hquiet _ Hin).
Qed.

Lemma result_is_what_the_parser_returns_witness :
  EvJsonDelegate (parse_datamodel_logs (Some (PyStr "endpoint 0"))) (Returns "NaN")
    ∈ new_events (after_load env_bad_json)
        (snd (parseDatamodelLogs env_bad_json "endpoint 0" (after_load env_bad_json))) /\
  fst (parseDatamodelLogs env_bad_json "endpoint 0" (after_load env_bad_json)) =
    Throws (Error "Failed to parse logs: SyntaxError: Unexpected token").
Proof.
  assert (Hnew : new_events (after_load env_bad_json)
                   (snd (parseDatamodelLogs env_bad_json "endpoint 0"
                           (after_load env_bad_json)))
                 = [EvLogLiteral "endpoint 0" (Returns (Some (PyStr "endpoint 0")));
                    EvGlobalsSet "log_data_str" (PyStr "endpoint 0");
                    EvJsonDelegate (parse_datamodel_logs (Some (PyStr "endpoint 0")))
                      (Returns "NaN");
                    EvConsole LError "Error parsing logs:"
                      (Some (Error "SyntaxError: Unexpected token"))])
    by (vm_compute; reflexivity).
  assert (Hin : EvJsonDelegate (parse_datamodel_logs (Some (PyStr "endpoint 0")))
                  (Returns "NaN")
                ∈ new_events (after_load env_bad_json)
                    (snd (parseDatamodelLogs env_bad_json "endpoint 0"
                            (after_load env_bad_json))))
    by (rewrite Hnew; in_list).
  split; [exact Hin|].
  exact (proj1 (result_is_what_the_parser_returns env_bad_json (after_load env_bad_json)
                  (parse_datamodel_logs (Some (PyStr "endpoint 0"))) "NaN")
           "endpoint 0" Hin).
Defined.

(** X12: when [JSON.stringify] throws on [parsedData], no delegate is
    run: [validateDeviceConformance] throws [Validation failed: ]
    followed by the message of that error, and [detectSpecVersion]
    returns [null]. *)
Theorem unserializable_argument_stops_the_call E w w1 parsedData e :
  ensurePyodideReady E w = (Returns tt, w1) ->
  JSON_stringify E parsedData = Throws e ->
  (forall specVersion,
     fst (validateDeviceConformance E parsedData specVersion w) =
       Throws (Error ("Validation failed: " +:+ message e)) /\
     forallb not_delegate
       (new_events w1 (snd (validateDeviceConformance E parsedData specVersion w))) = true) /\
  fst (detectSpecVersion E parsedData w) = Returns JNull /\
  forallb not_delegate (new_events w1 (snd (detectSpecVersion E parsedData w))) = true.
Proof.
  intros Hgate Hs. split; [intros specVersion|].
  - unfold validateDeviceConformance. rewrite (bind_gate_open E _ w w1 Hgate).
    run_m. rewrite Hs. simpl. split; [done|]. by new_events_now.
  - unfold detectSpecVersion. rewrite (bind_gate_open E _ w w1 Hgate).
    run_m. rewrite Hs. simpl. split; [done|]. by new_events_now.
Qed.

Lemma unserializable_argument_stops_the_call_witness :
  ensurePyodideReady env_ok (after_load env_ok) = (Returns tt, after_load env_ok) /\
  fst (validateDeviceConformance env_ok (JPyProxy 0) "1.4" (after_load env_ok)) =
    Throws (Error "Validation failed: TypeError: cyclic object value").
Proof.
  assert (Hgate : ensurePyodideReady env_ok (after_load env_ok) =
                  (Returns tt, after_load env_ok))
    by (apply gate_open_after_load; vm_compute; reflexivity).
  split; [exact Hgate|].
  destruct (unserializable_argument_stops_the_call env_ok _ _ (JPyProxy 0)
              (Error "TypeError: cyclic object value") Hgate eq_refl) as [Hvalidate _].
  exact (proj1 (Hvalidate "1.4")).
Defined.




(** X14: what [detectSpecVersion] returns is [null], the number [NaN],
    or a value that JavaScript takes for true: never [undefined], [false],
    zero or the empty string.  [NaN] is what Python takes for true and
    JavaScript does not. *)
Theorem detected_version_is_null_nan_or_truthy E parsedData w v :
  fst (detectSpecVersion E parsedData w) = Returns v ->
  v = JNull \/ v = JFloat S754_nan \/ js_truthy v = true.
Proof.
  unfold detectSpecVersion. unfold bind at 1.
  destruct (ensurePyodideReady E w) as [[[]|?e] w1] eqn:Hgate; simpl; [|discriminate].
  body_cases E.
  all: intros [= <-]; try (by left).
  all: right.
  all: match goal with
       | |- context [py_truthy ?x] =>
           destruct x as [|[]|?n|[| | |]|?t|[] ?id]; simpl; auto
       end.
  all: right.
  all: match goal with
       | |- context [if negb ?b then _ else _] =>
           destruct b eqn:Hb; simpl; [done|by rewrite Hb]
       end.
Qed.

Lemma detected_version_is_null_nan_or_truthy_witness :
  fst (detectSpecVersion env_detect_nan (JArr []) (after_load env_detect_nan)) =
    Returns (JFloat S754_nan) /\
  js_truthy (JFloat S754_nan) = false /\
  (JFloat S754_nan = JNull \/ JFloat S754_nan = JFloat S754_nan \/
   js_truthy (JFloat S754_nan) = true).
Proof.
  assert (Hret : fst (detectSpecVersion env_detect_nan (JArr []) (after_load env_detect_nan)) =
                 Returns (JFloat S754_nan)) by (vm_compute; reflexivity).
  split; [exact Hret|]. split; [reflexivity|].
  exact (detected_version_is_null_nan_or_truthy _ _ _ _ Hret).
Defined.

(** ** The log text that the delegate is handed *)

Lemma replace_char_absent c rep s :
  mentions c s = false -> replace_char c rep s = s.
Proof.
  induction s as [|a s IH]; simpl; [done|].
  destruct (Ascii.eqb a c); simpl; [done|]. intros H. by rewrite IH.
Qed.

Lemma replace_pair_absent c d rep s :
  mentions_pair c d s = false -> replace_pair c d rep s = s.
Proof.
  induction s as [|a s IH]; [done|].
  destruct s as [|b s']; [done|].
  change (mentions_pair c d (String a (String b s')))
    with ((Ascii.eqb a c && Ascii.eqb b d) || mentions_pair c d (String b s')).
  change (replace_pair c d rep (String a (String b s')))
    with (if Ascii.eqb a c && Ascii.eqb b d
          then rep +:+ replace_pair c d rep s'
          else String a (replace_pair c d rep (String b s'))).
  destruct (Ascii.eqb a c && Ascii.eqb b d); [done|].
  intros H. by rewrite (IH H).
Qed.

Lemma backslashed_plain s :
  mentions backtick s = false -> mentions_pair dollar lbrace s = false ->
  backslashed s = s.
Proof.
  intros Hb Hd. unfold backslashed.
  by rewrite (replace_char_absent _ _ _ Hb), (replace_pair_absent _ _ _ _ Hd).
Qed.

(** X15: for a log text of one line without double quotes, once the
    modules are loaded, the escaping of backslashes is undone by Python
    and the delegate is handed the text with a backslash before every
    backtick and every dollar-brace pair; so a text that has neither,
    backslashes or not, reaches the delegate as it is. *)
Theorem log_text_reaches_delegate E w logData :
  reachable E w -> pythonModulesLoaded w = true ->
  single_line_unquoted logData = true ->
  (exists r,
     EvJsonDelegate (parse_datamodel_logs (Some (PyStr (backslashed logData)))) r
       ∈ new_events w (snd (parseDatamodelLogs E logData w))) /\
  (mentions backtick logData = false -> mentions_pair dollar lbrace logData = false ->
   exists r,
     EvJsonDelegate (parse_datamodel_logs (Some (PyStr logData))) r
       ∈ new_events w (snd (parseDatamodelLogs E logData w))).
Proof.
  intros Hr Hfl Hs.
  pose proof (delegate_receives_backslashed E w logData Hr Hfl Hs) as H.
  split; [exact H|]. intros Hb Hd. by rewrite (backslashed_plain _ Hb Hd) in H.
Qed.

Lemma log_text_reaches_delegate_witness :
  exists r,
    EvJsonDelegate
      (parse_datamodel_logs (Some (PyStr (String "C" (String ":" (String backslash "new")))))) r
      ∈ new_events (after_load env_ok)
          (snd (parseDatamodelLogs env_ok (String "C" (String ":" (String backslash "new")))
                  (after_load env_ok))).
Proof.
  assert (Hfl : pythonModulesLoaded (after_load env_ok) = true) by (vm_compute; reflexivity).
  exact (proj2 (log_text_reaches_delegate env_ok (after_load env_ok)
                  (String "C" (String ":" (String backslash "new")))
                  (reachable_after_load env_ok) Hfl eq_refl) eq_refl eq_refl).
Defined.

(** ** What the host page is told *)

(** The world after the load of the module, from the outcome of
    initialization. *)
Lemma after_load_shape E :
  match fst (initializePyodide E initial) with
  | Returns h =>
      pyodide (after_load E) = Some h /\
      pythonModulesLoaded (after_load E) = true /\
      initializationPromise (after_load E) = Some (Returns h)
  | Throws e =>
      (EvHostReady ∉ trace (after_load E)) /\
      initializationPromise (after_load E) = Some (Throws e)
  end.
Proof.
  destruct (initializePyodide_events E initial eq_refl) as (_ & new & Htr & Hnew).
  destruct (initializePyodide_shape E initial eq_refl) as (_ & _ & Hret & _).
  unfold after_load, run_call, module_load, getPyodide.
  change (initializationPromise initial) with (@None (Outcome Handle)). cbv iota.
  run_m.
  destruct (initializePyodide E initial) as [[h|e] w']; simpl in *; page_cases E.
  all: try (by destruct (Hret h eq_refl)).
  all: split; [|done].
  all: rewrite Htr, <- ?app_assoc; simpl; intros Hin.
  all: apply elem_of_app in Hin as [Hin|Hin]; [|invert_in Hin].
  all: rewrite forallb_forall in Hnew; apply list_elem_of_In, Hnew in Hin; discriminate Hin.
Qed.

(** X17: when the host page was told that the bridge is ready, then
    after any further calls the runtime handle is in place, [getPyodide]
    answers with it, and the readiness check lets every remote call
    through without doing anything. *)
Theorem ready_host_can_call E calls :
  EvHostReady ∈ trace (after_load E) ->
  exists h,
    pyodide (run_calls E calls (after_load E)) = Some h /\
    getPyodide E (run_calls E calls (after_load E)) =
      (Returns h, run_calls E calls (after_load E)) /\
    ensurePyodideReady E (run_calls E calls (after_load E)) =
      (Returns tt, run_calls E calls (after_load E)).
Proof.
  intros Hin. pose proof (after_load_shape E) as H.
  destruct (fst (initializePyodide E initial)) as [h|e].
  - destruct H as (Hpy & Hfl & Hpr).
    destruct (run_calls_persists E calls (after_load E)) as (K1 & K2 & K3).
    exists h. split; [auto|]. split.
    + apply getPyodide_memoized. auto.
    + apply (ensurePyodideReady_open E _ h); auto.
  - exfalso. by destruct H as (Hno & _).
Qed.

Lemma ready_host_can_call_witness :
  EvHostReady ∈ trace (after_load env_wheel) /\
  ensurePyodideReady env_wheel
    (run_calls env_wheel [CRemote WGetSupportedVersions; CModuleLoad] (after_load env_wheel)) =
  (Returns tt,
   run_calls env_wheel [CRemote WGetSupportedVersions; CModuleLoad] (after_load env_wheel)).
Proof.
  assert (Hin : EvHostReady ∈ trace (after_load env_wheel)).
  { apply (list_elem_of_lookup_2 _ 11). vm_compute. reflexivity. }
  split; [exact Hin|].
  destruct (ready_host_can_call env_wheel
              [CRemote WGetSupportedVersions; CModuleLoad] Hin) as (h & _ & _ & Hgate).
  exact Hgate.
Defined.

(** ** Errors that the wrappers catch *)

Ltac failing_event Hin Hfail :=
  repeat (apply elem_of_cons in Hin as [->|Hin];
          [ simpl in Hfail; first [discriminate Hfail | injection Hfail as <-] | ]);
  try (by apply elem_of_nil in Hin).

Ltac split_last :=
  first [ by eexists [] | by eexists [_] | by eexists [_; _] | by eexists [_; _; _]
        | by eexists [_; _; _; _] ].

(** X18: once the readiness check has let a call through, an error
    raised by a script of the call is never dropped silently: the wrapper
    reports it to the console under its own label, as the last thing it
    does, also when it goes on to return [null] or the fallback list. *)
Theorem caught_errors_are_logged E c w w1 ev e :
  ensurePyodideReady E w = (Returns tt, w1) ->
  ev ∈ new_events w1 (snd (wrapper_body E c w)) ->
  failure_of ev = Some e ->
  exists pre,
    new_events w1 (snd (wrapper_body E c w)) =
      pre ++ [EvConsole LError (error_label c) (Some e)].
Proof.
  intros Hgate.
  destruct c as [logData|parsedData|parsedData specVersion|]; simpl.
  - unfold parseDatamodelLogs, run_log_literal. rewrite (bind_gate_open E _ w w1 Hgate).
    body_cases E; new_events_now.
    all: intros Hin Hfail; failing_event Hin Hfail.
    all: split_last.
  - unfold detectSpecVersion. rewrite (bind_gate_open E _ w w1 Hgate).
    body_cases E; new_events_now.
    all: intros Hin Hfail; failing_event Hin Hfail.
    all: split_last.
  - unfold validateDeviceConformance. rewrite (bind_gate_open E _ w w1 Hgate).
    body_cases E; new_events_now.
    all: intros Hin Hfail; failing_event Hin Hfail.
    all: split_last.
  - unfold getSupportedVersions. rewrite (bind_gate_open E _ w w1 Hgate).
    body_cases E; new_events_now.
    all: intros Hin Hfail; failing_event Hin Hfail.
    all: split_last.
Qed.

Lemma caught_errors_are_logged_witness :
  exists pre,
    new_events (after_load env_delegate_fails)
      (snd (wrapper_body env_delegate_fails WGetSupportedVersions
              (after_load env_delegate_fails))) =
    pre ++ [EvConsole LError "Error getting supported versions:"
              (Some (Error "PythonError: ValueError: no endpoints found"))].
Proof.
  assert (Hgate : ensurePyodideReady env_delegate_fails (after_load env_delegate_fails) =
                  (Returns tt, after_load env_delegate_fails))
    by (apply gate_open_after_load; vm_compute; reflexivity).
  assert (Hnew : new_events (after_load env_delegate_fails)
                   (snd (wrapper_body env_delegate_fails WGetSupportedVersions
                           (after_load env_delegate_fails)))
                 = [EvJsonDelegate SUPPORTED_SPEC_VERSIONS
                      (Throws (Error "PythonError: ValueError: no endpoints found"));
                    EvConsole LError "Error getting supported versions:"
                      (Some (Error "PythonError: ValueError: no endpoints found"))])
    by (vm_compute; reflexivity).
  apply (caught_errors_are_logged env_delegate_fails WGetSupportedVersions _ _
           (EvJsonDelegate SUPPORTED_SPEC_VERSIONS
              (Throws (Error "PythonError: ValueError: no endpoints found")))
           _ Hgate); [|reflexivity].
  rewrite Hnew. in_list.
Defined.
